(** * Dynamic-Wa material law: raw and regularized curves

    A shallow embedding of the four classes of
    [opm/material/fluidmatrixinteractions]:

    - [DynamicWaParams]             (DynamicWaParams.hpp)
    - [DynamicWa]                   (DynamicWa.hpp)
    - [RegularizedDynamicWaParams]  (RegularizedDynamicWaParams.hpp)
    - [RegularizedDynamicWa]        (RegularizedDynamicWa.hpp)

    Modelling decisions.

    - [Scalar] and [Evaluation] are the real numbers [R]: the formulas are
      read in exact real arithmetic, rounding is not modelled.  Decimal
      literals of the source ([0.01], [1e-7]) are the corresponding
      rationals.
    - The checked build is modelled: [assert] and [EnsureFinalized::check]
      are live.  A call that trips one of them is the value [Fatal]; every
      function that can abort returns a [result].
    - [Opm::pow] is declared in opm/material/common/MathToolbox.hpp, outside
      the four files embedded here; it is a parameter [pow] of every
      evaluator.  Concrete evaluations
      instantiate it with [Rpower], which is [std::pow] on positive bases.
      [Opm::min] is [Rmin]; [Opm::decay] is the identity on [R].
    - Inheritance is containment: a [RegularizedDynamicWaParams] holds its
      [DynamicWaParams] base object, and the raw evaluator, instantiated at
      the derived class, reads the inherited accessors through it. *)

From Stdlib Require Import Reals Lra Bool List.
Import ListNotations.
Open Scope R_scope.

(** ** Fatal failures *)

Inductive result (A : Type) : Type :=
| Ok (a : A)
| Fatal.

Arguments Ok {A} a.
Arguments Fatal {A}.

Definition bind {A B : Type} (c : result A) (k : A -> result B) : result B :=
  match c with
  | Ok a => k a
  | Fatal => Fatal
  end.

Notation "x <- c ;; k" := (bind c (fun x => k))
  (at level 61, c at next level, right associativity).
Notation "c ;;; k" := (bind c (fun _ => k))
  (at level 61, right associativity).

(** [assert(c)] of <cassert>, with assertions enabled. *)
Definition assert (c : bool) : result unit :=
  if c then Ok tt else Fatal.

(** Comparisons of the source, as booleans. *)
Definition leb (x y : R) : bool := if Rle_dec x y then true else false.
Definition ltb (x y : R) : bool := if Rlt_dec x y then true else false.
Definition geb (x y : R) : bool := leb y x.
Definition gtb (x y : R) : bool := ltb y x.

(** ** EnsureFinalized *)

Module EnsureFinalized.

(** Modelled from the spec: the class EnsureFinalized of
    opm/material/common/EnsureFinalized.hpp, which lies outside the four
    files embedded here.  The spec describes a flag that is clear on a
    freshly constructed object, is set by [finalize], and whose [check]
    fails fatally while the flag is clear. *)
Record t : Type := mk { finalized_ : bool }.

(** Modelled from the spec: the constructor of the missing class leaves
    the object not finalized. *)
Definition ctor : t := mk false.

(** Modelled from the spec: [finalize] of the missing class marks the
    object ready for reads. *)
Definition finalize (_ : t) : t := mk true.

(** Modelled from the spec: [check] of the missing class fails fatally
    unless [finalize] has been called. *)
Definition check (e : t) : result unit :=
  if finalized_ e then Ok tt else Fatal.

End EnsureFinalized.

(** ** DynamicWaParams *)

Module DynamicWaParams.

Record t : Type := mk {
  base : EnsureFinalized.t;
  entryPressure_ : R;
  finalEntryPressure_ : R;
  lambda_ : R;
  llambda_ : R;
  beta_ : R;
  eta_ : R;
  ei_ : R;
  ef_ : R
}.

(** The default constructor marks every member undefined; [u] carries the
    indeterminate contents of the fields. *)
Definition ctor (u : t) : t :=
  mk EnsureFinalized.ctor (entryPressure_ u) (finalEntryPressure_ u)
     (lambda_ u) (llambda_ u) (beta_ u) (eta_ u) (ei_ u) (ef_ u).

Definition finalize (p : t) : t :=
  mk (EnsureFinalized.finalize (base p)) (entryPressure_ p)
     (finalEntryPressure_ p) (lambda_ p) (llambda_ p) (beta_ p) (eta_ p)
     (ei_ p) (ef_ p).

(** [DynamicWaParams(ePressure, shapeParam)]: sets two fields and
    finalizes. *)
Definition ctor2 (u : t) (ePressure shapeParam : R) : t :=
  finalize (mk EnsureFinalized.ctor ePressure (finalEntryPressure_ u)
               shapeParam (llambda_ u) (beta_ u) (eta_ u) (ei_ u) (ef_ u)).

Definition check (p : t) : result unit := EnsureFinalized.check (base p).

Definition entryPressure (p : t) : result R :=
  check p ;;; Ok (entryPressure_ p).

Definition setEntryPressure (v : R) (p : t) : t :=
  mk (base p) v (finalEntryPressure_ p) (lambda_ p) (llambda_ p) (beta_ p)
     (eta_ p) (ei_ p) (ef_ p).

Definition finalEntryPressure (p : t) : result R :=
  check p ;;; Ok (finalEntryPressure_ p).

Definition setFinalEntryPressure (v : R) (p : t) : t :=
  mk (base p) (entryPressure_ p) v (lambda_ p) (llambda_ p) (beta_ p)
     (eta_ p) (ei_ p) (ef_ p).

Definition beta (p : t) : result R := Ok (beta_ p).

Definition setBeta (v : R) (p : t) : t :=
  mk (base p) (entryPressure_ p) (finalEntryPressure_ p) (lambda_ p)
     (llambda_ p) v (eta_ p) (ei_ p) (ef_ p).

Definition eta (p : t) : result R := Ok (eta_ p).

Definition setEta (v : R) (p : t) : t :=
  mk (base p) (entryPressure_ p) (finalEntryPressure_ p) (lambda_ p)
     (llambda_ p) (beta_ p) v (ei_ p) (ef_ p).

Definition ei (p : t) : result R := Ok (ei_ p).

Definition setEi (v : R) (p : t) : t :=
  mk (base p) (entryPressure_ p) (finalEntryPressure_ p) (lambda_ p)
     (llambda_ p) (beta_ p) (eta_ p) v (ef_ p).

Definition ef (p : t) : result R := Ok (ef_ p).

Definition setEf (v : R) (p : t) : t :=
  mk (base p) (entryPressure_ p) (finalEntryPressure_ p) (lambda_ p)
     (llambda_ p) (beta_ p) (eta_ p) (ei_ p) v.

Definition lambda (p : t) : result R :=
  check p ;;; Ok (lambda_ p).

Definition setLambda (v : R) (p : t) : t :=
  mk (base p) (entryPressure_ p) (finalEntryPressure_ p) v (llambda_ p)
     (beta_ p) (eta_ p) (ei_ p) (ef_ p).

Definition llambda (p : t) : result R :=
  check p ;;; Ok (llambda_ p).

Definition setLlambda (v : R) (p : t) : t :=
  mk (base p) (entryPressure_ p) (finalEntryPressure_ p) (lambda_ p) v
     (beta_ p) (eta_ p) (ei_ p) (ef_ p).

(** The flag, read through the base object. *)
Definition finalized (p : t) : bool := EnsureFinalized.finalized_ (base p).

End DynamicWaParams.

(** ** Fluid states and phase traits *)

Inductive phase : Type := wettingPhaseIdx | nonWettingPhaseIdx.

Record FluidState : Type := mkFluidState {
  saturation : phase -> R;
  wa : R
}.

(** ** DynamicWa: the raw curves *)

Module DynamicWa.

Import DynamicWaParams.

Section Curves.

Variable pow : R -> R -> R.

(** The return expression is kept in the shape of the source line:
    [(1.0 + (pf/pe - 1.0) * (Sw*Wa) / (beta + Sw*Wa)) * pe * pow(Sw, -1/lambda)]. *)
Definition twoPhaseSatPcnw (params : t) (Sw Wa : R) : result R :=
  assert (leb 0.0 Sw && leb Sw 1.0) ;;;
  pf <- finalEntryPressure params ;;
  pe <- entryPressure params ;;
  b <- beta params ;;
  pe' <- entryPressure params ;;
  l <- lambda params ;;
  Ok ((1.0 + (pf / pe - 1.0) * (Sw * Wa) / (b + Sw * Wa)) * pe'
      * pow Sw (-1 / l)).

Definition pcnw (params : t) (fs : FluidState) : result R :=
  let Sw := saturation fs wettingPhaseIdx in
  let Wa := wa fs in
  assert (leb 0.0 Sw && leb Sw 1.0) ;;;
  twoPhaseSatPcnw params Sw Wa.

Definition twoPhaseSatKrw (params : t) (Sw Wa : R) : result R :=
  assert (leb 0.0 Sw && leb Sw 1.0) ;;;
  e1 <- eta params ;;
  i1 <- ei params ;;
  f1 <- ef params ;;
  L1 <- llambda params ;;
  e2 <- eta params ;;
  i2 <- ei params ;;
  f2 <- ef params ;;
  L2 <- llambda params ;;
  Ok (Rmin (e1 * Wa + i1) f1 * pow Sw L1
      / (1.0 - Sw + Rmin (e2 * Wa + i2) f2 * pow Sw L2)).

Definition krw (params : t) (fs : FluidState) : result R :=
  let Sw := saturation fs wettingPhaseIdx in
  let Wa := wa fs in
  twoPhaseSatKrw params Sw Wa.

(** The local [Sn = 1.0 - Sw] of the source is never read. *)
Definition twoPhaseSatKrn (params : t) (Sw Wa : R) : result R :=
  assert (leb 0.0 Sw && leb Sw 1.0) ;;;
  e1 <- eta params ;;
  i1 <- ei params ;;
  f1 <- ef params ;;
  L1 <- llambda params ;;
  Ok ((1 - Sw) / (1.0 - Sw + Rmin (e1 * Wa + i1) f1 * pow Sw L1)).

Definition krn (params : t) (fs : FluidState) : result R :=
  let Sw := 1.0 - saturation fs nonWettingPhaseIdx in
  let Wa := wa fs in
  twoPhaseSatKrn params Sw Wa.

(** The batch entry points fill a two-slot container, wetting slot
    first. *)
Definition capillaryPressures (params : t) (fs : FluidState)
  : result (R * R) :=
  pc <- pcnw params fs ;;
  Ok (0.0, pc).

Definition relativePermeabilities (params : t) (fs : FluidState)
  : result (R * R) :=
  kw <- krw params fs ;;
  kn <- krn params fs ;;
  Ok (kw, kn).

End Curves.

End DynamicWa.

(** ** RegularizedDynamicWaParams *)

Module RegularizedDynamicWaParams.

Record t : Type := mk {
  super : DynamicWaParams.t;
  pcnwLowSw_ : R;
  pcnwLow_ : R;
  pcnwSlopeLow_ : R;
  pcnwHigh_ : R;
  pcnwSlopeHigh_ : R
}.

(** Default constructor: base default-constructed, threshold [0.01], the
    four derived members indeterminate (taken from [u]). *)
Definition ctor (u : t) : t :=
  mk (DynamicWaParams.ctor (super u)) 0.01 (pcnwLow_ u) (pcnwSlopeLow_ u)
     (pcnwHigh_ u) (pcnwSlopeHigh_ u).

Definition check (p : t) : result unit := DynamicWaParams.check (super p).

Definition pcnwLowSw (p : t) : result R := check p ;;; Ok (pcnwLowSw_ p).
Definition pcnwLow (p : t) : result R := check p ;;; Ok (pcnwLow_ p).
Definition pcnwSlopeLow (p : t) : result R :=
  check p ;;; Ok (pcnwSlopeLow_ p).
Definition pcnwHigh (p : t) : result R := check p ;;; Ok (pcnwHigh_ p).
Definition pcnwSlopeHigh (p : t) : result R :=
  check p ;;; Ok (pcnwSlopeHigh_ p).

Definition setPcLowSw (value : R) (p : t) : t :=
  mk (super p) value (pcnwLow_ p) (pcnwSlopeLow_ p) (pcnwHigh_ p)
     (pcnwSlopeHigh_ p).

(** Setters inherited from the base class act on the base object. *)
Definition onSuper (f : DynamicWaParams.t -> DynamicWaParams.t) (p : t)
  : t :=
  mk (f (super p)) (pcnwLowSw_ p) (pcnwLow_ p) (pcnwSlopeLow_ p)
     (pcnwHigh_ p) (pcnwSlopeHigh_ p).

Section Finalize.

Variable pow : R -> R -> R.

(** Finite differences of the unregularized curve, dynamic variable
    [wa = 0]. *)
Definition dPcnw_dSw_ (p : t) (Sw : R) : result R :=
  let eps := 1e-7 in
  let delta := 0.0 in
  let wa := 0 in
  pc2d <- (if ltb (Sw + eps) 1.0
           then pc2 <- DynamicWa.twoPhaseSatPcnw pow (super p)
                         (Sw + eps) wa ;;
                Ok (pc2, delta + eps)
           else pc2 <- DynamicWa.twoPhaseSatPcnw pow (super p) Sw wa ;;
                Ok (pc2, delta)) ;;
  let pc2 := fst pc2d in
  let delta := snd pc2d in
  pc1d <- (if gtb (Sw - eps) 0.0
           then pc1 <- DynamicWa.twoPhaseSatPcnw pow (super p)
                         (Sw - eps) wa ;;
                Ok (pc1, delta + eps)
           else pc1 <- DynamicWa.twoPhaseSatPcnw pow (super p) Sw wa ;;
                Ok (pc1, delta)) ;;
  let pc1 := fst pc1d in
  let delta := snd pc1d in
  Ok ((pc2 - pc1) / delta).

(** Each member is assigned in turn; the later steps read the object as
    updated so far. *)
Definition finalize (p : t) : result t :=
  let p0 := onSuper DynamicWaParams.finalize p in
  lo <- DynamicWa.twoPhaseSatPcnw pow (super p0) (pcnwLowSw_ p0) 0.0 ;;
  let p1 := mk (super p0) (pcnwLowSw_ p0) lo (pcnwSlopeLow_ p0)
               (pcnwHigh_ p0) (pcnwSlopeHigh_ p0) in
  slo <- dPcnw_dSw_ p1 (pcnwLowSw_ p1) ;;
  let p2 := mk (super p1) (pcnwLowSw_ p1) (pcnwLow_ p1) slo
               (pcnwHigh_ p1) (pcnwSlopeHigh_ p1) in
  hi <- DynamicWa.twoPhaseSatPcnw pow (super p2) 1.0 0.0 ;;
  let p3 := mk (super p2) (pcnwLowSw_ p2) (pcnwLow_ p2)
               (pcnwSlopeLow_ p2) hi (pcnwSlopeHigh_ p2) in
  shi <- dPcnw_dSw_ p3 1.0 ;;
  Ok (mk (super p3) (pcnwLowSw_ p3) (pcnwLow_ p3) (pcnwSlopeLow_ p3)
         (pcnwHigh_ p3) shi).

(** [RegularizedDynamicWaParams(entryPressure, lambda)]. *)
Definition ctor2 (u : t) (entryPressure lambda : R) : result t :=
  finalize (mk (DynamicWaParams.ctor2 (super u) entryPressure lambda)
               0.01 (pcnwLow_ u) (pcnwSlopeLow_ u) (pcnwHigh_ u)
               (pcnwSlopeHigh_ u)).

End Finalize.

End RegularizedDynamicWaParams.

(** ** RegularizedDynamicWa: the regularized curves *)

Module RegularizedDynamicWa.

Import RegularizedDynamicWaParams.

Section Curves.

Variable pow : R -> R -> R.

Definition twoPhaseSatPcnw (params : t) (Sw Wa : R) : result R :=
  Sthres <- pcnwLowSw params ;;
  if leb Sw Sthres then
    pcnw_SwLow <- DynamicWa.twoPhaseSatPcnw pow (super params) Sthres Wa ;;
    let eps := 1e-7 in
    let delta := 0.0 in
    pc2 <- DynamicWa.twoPhaseSatPcnw pow (super params) (Sthres + eps) Wa ;;
    let delta := delta + eps in
    pc1 <- DynamicWa.twoPhaseSatPcnw pow (super params) (Sthres - eps) Wa ;;
    let delta := delta + eps in
    let m := (pc2 - pc1) / delta in
    Ok (pcnw_SwLow + m * (Sw - Sthres))
  else if geb Sw 1.0 then
    pcnw_SwHigh <- DynamicWa.twoPhaseSatPcnw pow (super params) 1.0 Wa ;;
    let eps := 1e-7 in
    let delta := 0.0 in
    pc2 <- DynamicWa.twoPhaseSatPcnw pow (super params) 1.0 Wa ;;
    pc1 <- DynamicWa.twoPhaseSatPcnw pow (super params) (1.0 - eps) Wa ;;
    let delta := delta + eps in
    let m := (pc2 - pc1) / delta in
    Ok (pcnw_SwHigh + m * (Sw - 1.0))
  else
    DynamicWa.twoPhaseSatPcnw pow (super params) Sw Wa.

Definition pcnw (params : t) (fs : FluidState) : result R :=
  let Sw := saturation fs wettingPhaseIdx in
  let Wa := wa fs in
  twoPhaseSatPcnw params Sw Wa.

Definition twoPhaseSatKrw (params : t) (Sw Wa : R) : result R :=
  if leb Sw 0.0 then Ok 0.0
  else if geb Sw 1.0 then Ok 1.0
  else DynamicWa.twoPhaseSatKrw pow (super params) Sw Wa.

Definition krw (params : t) (fs : FluidState) : result R :=
  let Sw := saturation fs wettingPhaseIdx in
  let Wa := wa fs in
  twoPhaseSatKrw params Sw Wa.

Definition twoPhaseSatKrn (params : t) (Sw Wa : R) : result R :=
  if geb Sw 1.0 then Ok 0.0
  else if leb Sw 0.0 then Ok 1.0
  else DynamicWa.twoPhaseSatKrn pow (super params) Sw Wa.

Definition krn (params : t) (fs : FluidState) : result R :=
  let Sw := 1.0 - saturation fs nonWettingPhaseIdx in
  let Wa := wa fs in
  twoPhaseSatKrn params Sw Wa.

Definition capillaryPressures (params : t) (fs : FluidState)
  : result (R * R) :=
  pc <- pcnw params fs ;;
  Ok (0.0, pc).

Definition relativePermeabilities (params : t) (fs : FluidState)
  : result (R * R) :=
  kw <- krw params fs ;;
  kn <- krn params fs ;;
  Ok (kw, kn).

End Curves.

End RegularizedDynamicWa.

(** ** Specification-level curves

    The closed forms, written after the prose of the specification; the
    theorems below relate them to the evaluators. *)

Section SpecCurves.

Variable pow : R -> R -> R.

Import DynamicWaParams.

(** pc(Sw, Wa) = EntryPressure * Sw^(-1/lambda)
                 * [1 + (FinalEntryPressure/EntryPressure - 1)
                        * (Sw*Wa) / (beta + Sw*Wa)] *)
Definition pc_spec (p : t) (Sw Wa : R) : R :=
  entryPressure_ p * pow Sw (-1 / lambda_ p)
  * (1 + (finalEntryPressure_ p / entryPressure_ p - 1)
         * ((Sw * Wa) / (beta_ p + Sw * Wa))).

(** C(Wa) = min(eta*Wa + Ei, Ef) *)
Definition C_spec (p : t) (Wa : R) : R :=
  Rmin (eta_ p * Wa + ei_ p) (ef_ p).

(** The shared denominator 1 - Sw + C(Wa) * Sw^Lambda. *)
Definition kr_denominator (p : t) (Sw Wa : R) : R :=
  1 - Sw + C_spec p Wa * pow Sw (llambda_ p).

(** krw(Sw, Wa) = C(Wa) * Sw^Lambda / (1 - Sw + C(Wa) * Sw^Lambda) *)
Definition krw_spec (p : t) (Sw Wa : R) : R :=
  C_spec p Wa * pow Sw (llambda_ p) / kr_denominator p Sw Wa.

(** krn(Sw, Wa) = (1 - Sw) / (1 - Sw + C(Wa) * Sw^Lambda) *)
Definition krn_spec (p : t) (Sw Wa : R) : R :=
  (1 - Sw) / kr_denominator p Sw Wa.

(** The finite-difference step. *)
Definition fd_step : R := 1e-7.

(** Symmetric difference of the raw capillary pressure around [s]. *)
Definition pc_symmetric_slope (p : t) (s Wa : R) : R :=
  (pc_spec p (s + fd_step) Wa - pc_spec p (s - fd_step) Wa)
  / (2 * fd_step).

(** One-sided differences of the raw capillary pressure at [s]. *)
Definition pc_forward_slope (p : t) (s Wa : R) : R :=
  (pc_spec p (s + fd_step) Wa - pc_spec p s Wa) / fd_step.

Definition pc_backward_slope (p : t) (s Wa : R) : R :=
  (pc_spec p s Wa - pc_spec p (s - fd_step) Wa) / fd_step.

(** The slope estimate as the specification words it: symmetric when both
    [s + 1e-7] and [s - 1e-7] stay inside (0, 1), otherwise the one-sided
    difference on the side that stays inside. *)
Definition pc_slope_spec (p : t) (s Wa : R) : R :=
  if ltb (s + fd_step) 1 && ltb 0 (s - fd_step)
  then pc_symmetric_slope p s Wa
  else if ltb (s + fd_step) 1
       then pc_forward_slope p s Wa
       else pc_backward_slope p s Wa.

(** A regularized store is finalized when it is what [finalize] returned. *)
Definition RegFinalized (q : RegularizedDynamicWaParams.t) : Prop :=
  exists p, RegularizedDynamicWaParams.finalize pow p = Ok q.

End SpecCurves.

(** ** Specification-level store contents and extrapolation *)

Section SpecStore.

Variable pow : R -> R -> R.

Import RegularizedDynamicWaParams.

(** What [finalize] leaves in the store: the base object finalized, the
    threshold untouched, and the four derived values taken from the raw
    curve at dynamic variable 0. *)
Definition finalized_store (p : t) : t :=
  let b := DynamicWaParams.finalize (super p) in
  mk b (pcnwLowSw_ p)
     (pc_spec pow b (pcnwLowSw_ p) 0)
     (pc_slope_spec pow b (pcnwLowSw_ p) 0)
     (pc_spec pow b 1 0)
     (pc_backward_slope pow b 1 0).

(** The extrapolation from the precomputed members, as the specification
    words it: boundary value plus boundary slope times the distance to the
    boundary, read through the guarded accessors. *)
Definition pinned_low (q : t) (Sw : R) : result R :=
  th <- pcnwLowSw q ;;
  lo <- pcnwLow q ;;
  m <- pcnwSlopeLow q ;;
  Ok (lo + m * (Sw - th)).

Definition pinned_high (q : t) (Sw : R) : result R :=
  hi <- pcnwHigh q ;;
  m <- pcnwSlopeHigh q ;;
  Ok (hi + m * (Sw - 1)).

End SpecStore.

(** ** Lifecycle: stores on which [finalize] was never called *)

(** The eight mutators of the base class. *)
Inductive BaseSetter : (DynamicWaParams.t -> DynamicWaParams.t) -> Prop :=
| bs_setEntryPressure v : BaseSetter (DynamicWaParams.setEntryPressure v)
| bs_setFinalEntryPressure v :
    BaseSetter (DynamicWaParams.setFinalEntryPressure v)
| bs_setLambda v : BaseSetter (DynamicWaParams.setLambda v)
| bs_setLlambda v : BaseSetter (DynamicWaParams.setLlambda v)
| bs_setBeta v : BaseSetter (DynamicWaParams.setBeta v)
| bs_setEta v : BaseSetter (DynamicWaParams.setEta v)
| bs_setEi v : BaseSetter (DynamicWaParams.setEi v)
| bs_setEf v : BaseSetter (DynamicWaParams.setEf v).

(** Reachable from the default constructor by setters only. *)
Inductive NeverFinalized : DynamicWaParams.t -> Prop :=
| nf_ctor u : NeverFinalized (DynamicWaParams.ctor u)
| nf_set f p : BaseSetter f -> NeverFinalized p -> NeverFinalized (f p).

Inductive RegNeverFinalized : RegularizedDynamicWaParams.t -> Prop :=
| rnf_ctor u : RegNeverFinalized (RegularizedDynamicWaParams.ctor u)
| rnf_setPcLowSw v q :
    RegNeverFinalized q ->
    RegNeverFinalized (RegularizedDynamicWaParams.setPcLowSw v q)
| rnf_inherited f q :
    BaseSetter f -> RegNeverFinalized q ->
    RegNeverFinalized (RegularizedDynamicWaParams.onSuper f q).

(** ** Concrete stores *)

(** Indeterminate initial contents, fixed to zero for the examples. *)
Definition junk : RegularizedDynamicWaParams.t :=
  RegularizedDynamicWaParams.mk
    (DynamicWaParams.mk EnsureFinalized.ctor 0 0 0 0 0 0 0 0) 0 0 0 0 0.

(** A regularized store set up through the inherited setters. *)
Definition setup (pe pf l b e i f L thres : R)
  : RegularizedDynamicWaParams.t :=
  let up := RegularizedDynamicWaParams.onSuper in
  RegularizedDynamicWaParams.setPcLowSw thres
    (up (DynamicWaParams.setLlambda L)
      (up (DynamicWaParams.setEf f)
        (up (DynamicWaParams.setEi i)
          (up (DynamicWaParams.setEta e)
            (up (DynamicWaParams.setBeta b)
              (up (DynamicWaParams.setLambda l)
                (up (DynamicWaParams.setFinalEntryPressure pf)
                  (up (DynamicWaParams.setEntryPressure pe)
                    (RegularizedDynamicWaParams.ctor junk))))))))).

(** The scenario of the specification: entry pressure 1000, final entry
    pressure 5000, lambda 2, beta 0.1, eta 1, Ei 0.5, Ef 2, Lambda 3,
    threshold 0.01. *)
Definition scenario : RegularizedDynamicWaParams.t :=
  setup 1000 5000 2 0.1 1 0.5 2 3 0.01.

(** A store whose final entry pressure is seventeen times the entry
    pressure; everything else as in the scenario. *)
Definition steep : RegularizedDynamicWaParams.t :=
  setup 1000 17000 2 0.1 1 0.5 2 3 0.01.

(** The scenario with the threshold moved below the finite-difference
    step. *)
Definition tiny_threshold : RegularizedDynamicWaParams.t :=
  setup 1000 5000 2 0.1 1 0.5 2 3 5e-8.

(** [std::pow] on a positive base. *)
Definition std_pow (x y : R) : R := Rpower x y.

(** [std::pow] on a non-negative base with a positive exponent: a zero
    base gives zero. *)
Definition std_pow_posexp (x y : R) : R :=
  if Req_dec_T x 0 then 0 else Rpower x y.

(** A fluid state whose two saturations are 0.3 and 0.7, dynamic variable
    0.2. *)
Definition balanced_state : FluidState :=
  mkFluidState
    (fun ph => match ph with
               | wettingPhaseIdx => 0.3
               | nonWettingPhaseIdx => 0.7
               end)
    0.2.

(** A fluid state outside the physical range: wetting saturation 1.2,
    non-wetting saturation -0.2. *)
Definition overfull_state : FluidState :=
  mkFluidState
    (fun ph => match ph with
               | wettingPhaseIdx => 1.2
               | nonWettingPhaseIdx => -0.2
               end)
    0.

(** Unfold a concrete store down to its members. *)
Ltac store :=
  cbv beta iota zeta delta
    [scenario steep tiny_threshold setup junk finalized_store
     RegularizedDynamicWaParams.ctor RegularizedDynamicWaParams.setPcLowSw
     RegularizedDynamicWaParams.onSuper RegularizedDynamicWaParams.super
     RegularizedDynamicWaParams.pcnwLowSw_ RegularizedDynamicWaParams.pcnwLow_
     RegularizedDynamicWaParams.pcnwSlopeLow_
     RegularizedDynamicWaParams.pcnwHigh_
     RegularizedDynamicWaParams.pcnwSlopeHigh_
     DynamicWaParams.ctor DynamicWaParams.finalize DynamicWaParams.finalized
     DynamicWaParams.setEntryPressure DynamicWaParams.setFinalEntryPressure
     DynamicWaParams.setLambda DynamicWaParams.setLlambda
     DynamicWaParams.setBeta DynamicWaParams.setEta DynamicWaParams.setEi
     DynamicWaParams.setEf DynamicWaParams.base
     DynamicWaParams.entryPressure_ DynamicWaParams.finalEntryPressure_
     DynamicWaParams.lambda_ DynamicWaParams.llambda_ DynamicWaParams.beta_
     DynamicWaParams.eta_ DynamicWaParams.ei_ DynamicWaParams.ef_
     EnsureFinalized.ctor EnsureFinalized.finalize
     EnsureFinalized.finalized_].

(** ** Basic facts *)

Lemma leb_true (x y : R) : x <= y -> leb x y = true.
Proof. intros H. unfold leb. destruct (Rle_dec x y); [reflexivity | contradiction]. Qed.

Lemma leb_false (x y : R) : y < x -> leb x y = false.
Proof. intros H. unfold leb. destruct (Rle_dec x y); [lra | reflexivity]. Qed.

Lemma ltb_true (x y : R) : x < y -> ltb x y = true.
Proof. intros H. unfold ltb. destruct (Rlt_dec x y); [reflexivity | contradiction]. Qed.

Lemma ltb_false (x y : R) : y <= x -> ltb x y = false.
Proof. intros H. unfold ltb. destruct (Rlt_dec x y); [lra | reflexivity]. Qed.

Lemma leb_spec (x y : R) : leb x y = true <-> x <= y.
Proof.
  split; [| apply leb_true].
  unfold leb. destruct (Rle_dec x y); [trivial | discriminate].
Qed.

Lemma ltb_spec (x y : R) : ltb x y = true <-> x < y.
Proof.
  split; [| apply ltb_true].
  unfold ltb. destruct (Rlt_dec x y); [trivial | discriminate].
Qed.

Lemma in_range (Sw : R) :
  leb 0.0 Sw && leb Sw 1.0 = true <-> 0 <= Sw <= 1.
Proof.
  rewrite andb_true_iff, !leb_spec. lra.
Qed.

Lemma out_of_range (Sw : R) :
  ~ (0 <= Sw <= 1) -> leb 0.0 Sw && leb Sw 1.0 = false.
Proof.
  intros H. apply not_true_is_false. rewrite in_range. exact H.
Qed.

Section RawFacts.

Variable pow : R -> R -> R.

Import DynamicWaParams.

Lemma check_finalized (p : t) : finalized p = true -> check p = Ok tt.
Proof.
  unfold finalized, check, EnsureFinalized.check. intros ->. reflexivity.
Qed.

Lemma check_not_finalized (p : t) : finalized p = false -> check p = Fatal.
Proof.
  unfold finalized, check, EnsureFinalized.check. intros ->. reflexivity.
Qed.

Lemma finalize_finalized (p : t) : finalized (finalize p) = true.
Proof. reflexivity. Qed.

(** The raw capillary pressure, on its domain, is the return expression
    of the source, which is the closed form up to reordering. *)
Lemma raw_pcnw_value (p : t) (Sw Wa : R) :
  finalized p = true -> 0 <= Sw <= 1 ->
  DynamicWa.twoPhaseSatPcnw pow p Sw Wa = Ok (pc_spec pow p Sw Wa).
Proof.
  intros Hf Hr. unfold DynamicWa.twoPhaseSatPcnw.
  unfold finalEntryPressure, entryPressure, lambda, beta.
  rewrite (check_finalized p Hf).
  apply in_range in Hr. rewrite Hr. cbn.
  f_equal. unfold pc_spec. replace 1.0 with 1 by lra.
  unfold Rdiv. ring.
Qed.

Lemma raw_pcnw_out_of_range (p : t) (Sw Wa : R) :
  ~ (0 <= Sw <= 1) -> DynamicWa.twoPhaseSatPcnw pow p Sw Wa = Fatal.
Proof.
  intros Hr. unfold DynamicWa.twoPhaseSatPcnw.
  rewrite (out_of_range Sw Hr). reflexivity.
Qed.

Lemma raw_krw_value (p : t) (Sw Wa : R) :
  finalized p = true -> 0 <= Sw <= 1 ->
  DynamicWa.twoPhaseSatKrw pow p Sw Wa = Ok (krw_spec pow p Sw Wa).
Proof.
  intros Hf Hr. unfold DynamicWa.twoPhaseSatKrw.
  unfold llambda, eta, ei, ef.
  rewrite (check_finalized p Hf).
  apply in_range in Hr. rewrite Hr. cbn.
  f_equal. unfold krw_spec, kr_denominator, C_spec.
  replace 1.0 with 1 by lra. reflexivity.
Qed.

Lemma raw_krn_value (p : t) (Sw Wa : R) :
  finalized p = true -> 0 <= Sw <= 1 ->
  DynamicWa.twoPhaseSatKrn pow p Sw Wa = Ok (krn_spec pow p Sw Wa).
Proof.
  intros Hf Hr. unfold DynamicWa.twoPhaseSatKrn.
  unfold llambda, eta, ei, ef.
  rewrite (check_finalized p Hf).
  apply in_range in Hr. rewrite Hr. cbn.
  f_equal. unfold krn_spec, kr_denominator, C_spec.
  replace 1.0 with 1 by lra. reflexivity.
Qed.

End RawFacts.

Section RegularizedFacts.

Variable pow : R -> R -> R.

Import RegularizedDynamicWaParams.

Lemma dPcnw_dSw_value (p : t) (s : R) :
  DynamicWaParams.finalized (super p) = true -> 0 <= s <= 1 ->
  dPcnw_dSw_ pow p s = Ok (pc_slope_spec pow (super p) s 0).
Proof.
  intros Hf Hs. unfold dPcnw_dSw_, pc_slope_spec, gtb.
  replace 0.0 with 0 by lra. replace 1.0 with 1 by lra.
  change 1e-7 with fd_step.
  assert (He : fd_step = 1e-7) by reflexivity.
  destruct (Rlt_dec (s + fd_step) 1) as [Hu | Hu];
    destruct (Rlt_dec 0 (s - fd_step)) as [Hl | Hl].
  - rewrite (ltb_true _ _ Hu), (ltb_true _ _ Hl).
    rewrite !raw_pcnw_value by (trivial; lra). cbn.
    f_equal. unfold pc_symmetric_slope. f_equal. lra.
  - rewrite (ltb_true _ _ Hu), (ltb_false 0 (s - fd_step)) by lra.
    rewrite !raw_pcnw_value by (trivial; lra). cbn.
    f_equal. unfold pc_forward_slope. f_equal. lra.
  - rewrite (ltb_false (s + fd_step) 1), (ltb_true _ _ Hl) by lra.
    rewrite !raw_pcnw_value by (trivial; lra). cbn.
    f_equal. unfold pc_backward_slope. f_equal. lra.
  - exfalso. lra.
Qed.

Lemma finalize_in_range (p : t) :
  0 <= pcnwLowSw_ p <= 1 -> finalize pow p = Ok (finalized_store pow p).
Proof.
  intros Ht. unfold finalize, finalized_store.
  cbn [onSuper super pcnwLowSw_ pcnwLow_ pcnwSlopeLow_ pcnwHigh_
       pcnwSlopeHigh_].
  replace 0.0 with 0 by lra. replace 1.0 with 1 by lra.
  rewrite !raw_pcnw_value by (first [reflexivity | lra]).
  cbn [bind super pcnwLowSw_].
  rewrite dPcnw_dSw_value by (first [reflexivity | cbn; lra]).
  cbn [bind super pcnwLowSw_ pcnwLow_ pcnwSlopeLow_ pcnwHigh_].
  rewrite dPcnw_dSw_value by (first [reflexivity | cbn; lra]).
  cbn [bind super pcnwLowSw_ pcnwLow_ pcnwSlopeLow_ pcnwHigh_].
  do 2 f_equal.
  unfold pc_slope_spec.
  rewrite (ltb_false (1 + fd_step) 1) by (unfold fd_step; lra).
  reflexivity.
Qed.

Lemma finalize_out_of_range (p : t) :
  ~ (0 <= pcnwLowSw_ p <= 1) -> finalize pow p = Fatal.
Proof.
  intros Ht. unfold finalize.
  cbn [onSuper super pcnwLowSw_].
  rewrite raw_pcnw_out_of_range by exact Ht. reflexivity.
Qed.

Lemma RegFinalized_inv (q : t) :
  RegFinalized pow q ->
  exists p, q = finalized_store pow p /\ 0 <= pcnwLowSw_ p <= 1.
Proof.
  intros [p Hp]. exists p.
  destruct (Rle_dec 0 (pcnwLowSw_ p)) as [H0 | H0];
    [destruct (Rle_dec (pcnwLowSw_ p) 1) as [H1 | H1] |].
  - rewrite finalize_in_range in Hp by lra. split; [congruence | lra].
  - rewrite finalize_out_of_range in Hp by lra. discriminate.
  - rewrite finalize_out_of_range in Hp by lra. discriminate.
Qed.

Lemma RegFinalized_flag (q : t) :
  RegFinalized pow q -> DynamicWaParams.finalized (super q) = true.
Proof.
  intros H. destruct (RegFinalized_inv q H) as [p [-> _]]. reflexivity.
Qed.

Lemma RegFinalized_threshold (q : t) :
  RegFinalized pow q -> 0 <= pcnwLowSw_ q <= 1.
Proof.
  intros H. destruct (RegFinalized_inv q H) as [p [-> Hp]]. exact Hp.
Qed.

Lemma pcnwLowSw_finalized (q : t) :
  DynamicWaParams.finalized (super q) = true ->
  pcnwLowSw q = Ok (pcnwLowSw_ q).
Proof.
  intros Hf. unfold pcnwLowSw, check.
  rewrite (check_finalized _ Hf). reflexivity.
Qed.

(** The three regions of the regularized capillary pressure. *)
Lemma reg_pcnw_low (q : t) (Sw Wa : R) :
  DynamicWaParams.finalized (super q) = true ->
  fd_step <= pcnwLowSw_ q <= 1 - fd_step ->
  Sw <= pcnwLowSw_ q ->
  RegularizedDynamicWa.twoPhaseSatPcnw pow q Sw Wa
  = Ok (pc_spec pow (super q) (pcnwLowSw_ q) Wa
        + pc_symmetric_slope pow (super q) (pcnwLowSw_ q) Wa
          * (Sw - pcnwLowSw_ q)).
Proof.
  intros Hf Ht Hs. unfold RegularizedDynamicWa.twoPhaseSatPcnw.
  rewrite (pcnwLowSw_finalized q Hf). cbn [bind].
  rewrite (leb_true _ _ Hs).
  change 1e-7 with fd_step.
  rewrite !raw_pcnw_value by (trivial; unfold fd_step in *; lra).
  cbn [bind]. f_equal. unfold pc_symmetric_slope.
  do 3 f_equal. lra.
Qed.

Lemma reg_pcnw_high (q : t) (Sw Wa : R) :
  DynamicWaParams.finalized (super q) = true ->
  pcnwLowSw_ q < Sw -> 1 <= Sw ->
  RegularizedDynamicWa.twoPhaseSatPcnw pow q Sw Wa
  = Ok (pc_spec pow (super q) 1 Wa
        + pc_backward_slope pow (super q) 1 Wa * (Sw - 1)).
Proof.
  intros Hf Ht Hs. unfold RegularizedDynamicWa.twoPhaseSatPcnw.
  rewrite (pcnwLowSw_finalized q Hf). cbn [bind].
  rewrite (leb_false _ _ Ht). unfold geb.
  replace 1.0 with 1 by lra.
  rewrite (leb_true _ _ Hs).
  change 1e-7 with fd_step.
  rewrite !raw_pcnw_value by (trivial; unfold fd_step in *; lra).
  cbn [bind]. f_equal. unfold pc_backward_slope.
  do 3 f_equal. lra.
Qed.

Lemma reg_pcnw_mid (q : t) (Sw Wa : R) :
  DynamicWaParams.finalized (super q) = true ->
  pcnwLowSw_ q < Sw < 1 ->
  RegularizedDynamicWa.twoPhaseSatPcnw pow q Sw Wa
  = DynamicWa.twoPhaseSatPcnw pow (super q) Sw Wa.
Proof.
  intros Hf Hs. unfold RegularizedDynamicWa.twoPhaseSatPcnw.
  rewrite (pcnwLowSw_finalized q Hf). cbn [bind].
  rewrite (leb_false Sw (pcnwLowSw_ q)) by lra. unfold geb.
  rewrite (leb_false 1.0 Sw) by lra. reflexivity.
Qed.

(** Below the step, or above one minus the step, the low branch samples
    the raw curve outside [0, 1] and aborts. *)
Lemma reg_pcnw_low_fatal (q : t) (Sw Wa : R) :
  DynamicWaParams.finalized (super q) = true ->
  0 <= pcnwLowSw_ q <= 1 ->
  ~ (fd_step <= pcnwLowSw_ q <= 1 - fd_step) ->
  Sw <= pcnwLowSw_ q ->
  RegularizedDynamicWa.twoPhaseSatPcnw pow q Sw Wa = Fatal.
Proof.
  intros Hf Ht Hn Hs. unfold RegularizedDynamicWa.twoPhaseSatPcnw.
  rewrite (pcnwLowSw_finalized q Hf). cbn [bind].
  rewrite (leb_true _ _ Hs).
  change 1e-7 with fd_step.
  rewrite (raw_pcnw_value pow (super q) (pcnwLowSw_ q)) by (trivial; lra).
  cbn [bind].
  destruct (Rle_dec (pcnwLowSw_ q) (1 - fd_step)) as [Hu | Hu].
  - rewrite (raw_pcnw_value pow (super q) (pcnwLowSw_ q + fd_step))
      by (trivial; unfold fd_step in *; lra).
    cbn [bind].
    rewrite raw_pcnw_out_of_range by lra. reflexivity.
  - rewrite raw_pcnw_out_of_range by lra. reflexivity.
Qed.

End RegularizedFacts.

(** ** The raw evaluator *)

Section RawClaims.

Variable pow : R -> R -> R.

Import DynamicWaParams.

(** C2.  On a finalized store and for 0 <= Sw <= 1, the raw capillary
    pressure is
    EntryPressure * Sw^(-1/lambda)
    * [1 + (FinalEntryPressure/EntryPressure - 1) * (Sw*Wa)/(beta + Sw*Wa)],
    for every Wa; nothing guards a zero entry pressure or a zero
    saturation. *)
Theorem raw_pcnw_closed_form (p : t) (Sw Wa : R) :
  finalized p = true ->
  0 <= Sw <= 1 ->
  DynamicWa.twoPhaseSatPcnw pow p Sw Wa
  = Ok (entryPressure_ p * pow Sw (-1 / lambda_ p)
        * (1 + (finalEntryPressure_ p / entryPressure_ p - 1)
               * ((Sw * Wa) / (beta_ p + Sw * Wa)))).
Proof.
  intros Hf Hr. rewrite (raw_pcnw_value pow p Sw Wa Hf Hr). reflexivity.
Qed.

(** C3.  On a finalized store and for 0 <= Sw <= 1, the raw relative
    permeabilities are
    krw = C(Wa) * Sw^Lambda / (1 - Sw + C(Wa) * Sw^Lambda) and
    krn = (1 - Sw) / (1 - Sw + C(Wa) * Sw^Lambda),
    with one and the same C(Wa) = min(eta*Wa + Ei, Ef) in both. *)
Theorem raw_kr_closed_forms (p : t) (Sw Wa : R) :
  finalized p = true ->
  0 <= Sw <= 1 ->
  let C := Rmin (eta_ p * Wa + ei_ p) (ef_ p) in
  DynamicWa.twoPhaseSatKrw pow p Sw Wa
  = Ok (C * pow Sw (llambda_ p) / (1 - Sw + C * pow Sw (llambda_ p)))
  /\ DynamicWa.twoPhaseSatKrn pow p Sw Wa
     = Ok ((1 - Sw) / (1 - Sw + C * pow Sw (llambda_ p))).
Proof.
  intros Hf Hr C. split.
  - rewrite (raw_krw_value pow p Sw Wa Hf Hr). reflexivity.
  - rewrite (raw_krn_value pow p Sw Wa Hf Hr). reflexivity.
Qed.

End RawClaims.

(** ** The regularized evaluator *)

Section RegularizedClaims.

Variable pow : R -> R -> R.

Import RegularizedDynamicWaParams.

(** The four clamps, one by one. *)
Lemma reg_krw_below (q : t) (Sw Wa : R) :
  Sw <= 0 -> RegularizedDynamicWa.twoPhaseSatKrw pow q Sw Wa = Ok 0.
Proof.
  intros H. unfold RegularizedDynamicWa.twoPhaseSatKrw.
  replace 0.0 with 0 by lra.
  rewrite (leb_true Sw 0 H). reflexivity.
Qed.

Lemma reg_krw_above (q : t) (Sw Wa : R) :
  1 <= Sw -> RegularizedDynamicWa.twoPhaseSatKrw pow q Sw Wa = Ok 1.
Proof.
  intros H. unfold RegularizedDynamicWa.twoPhaseSatKrw, geb.
  replace 0.0 with 0 by lra. replace 1.0 with 1 by lra.
  rewrite (leb_false Sw 0) by lra. rewrite (leb_true 1 Sw H). reflexivity.
Qed.

Lemma reg_krn_below (q : t) (Sw Wa : R) :
  Sw <= 0 -> RegularizedDynamicWa.twoPhaseSatKrn pow q Sw Wa = Ok 1.
Proof.
  intros H. unfold RegularizedDynamicWa.twoPhaseSatKrn, geb.
  replace 0.0 with 0 by lra. replace 1.0 with 1 by lra.
  rewrite (leb_false 1 Sw) by lra. rewrite (leb_true Sw 0 H). reflexivity.
Qed.

Lemma reg_krn_above (q : t) (Sw Wa : R) :
  1 <= Sw -> RegularizedDynamicWa.twoPhaseSatKrn pow q Sw Wa = Ok 0.
Proof.
  intros H. unfold RegularizedDynamicWa.twoPhaseSatKrn, geb.
  replace 0.0 with 0 by lra. replace 1.0 with 1 by lra.
  rewrite (leb_true 1 Sw H). reflexivity.
Qed.

(** The regularized permeabilities between the clamps. *)
Lemma reg_krw_mid (q : t) (Sw Wa : R) :
  0 < Sw < 1 ->
  RegularizedDynamicWa.twoPhaseSatKrw pow q Sw Wa
  = DynamicWa.twoPhaseSatKrw pow (super q) Sw Wa.
Proof.
  intros H. unfold RegularizedDynamicWa.twoPhaseSatKrw, geb.
  rewrite (leb_false Sw 0.0), (leb_false 1.0 Sw) by lra. reflexivity.
Qed.

Lemma reg_krn_mid (q : t) (Sw Wa : R) :
  0 < Sw < 1 ->
  RegularizedDynamicWa.twoPhaseSatKrn pow q Sw Wa
  = DynamicWa.twoPhaseSatKrn pow (super q) Sw Wa.
Proof.
  intros H. unfold RegularizedDynamicWa.twoPhaseSatKrn, geb.
  rewrite (leb_false Sw 0.0), (leb_false 1.0 Sw) by lra. reflexivity.
Qed.

(** The raw permeabilities are complementary wherever the shared
    denominator does not vanish. *)
Lemma raw_kr_complementary (p : DynamicWaParams.t) (Sw Wa : R) :
  DynamicWaParams.finalized p = true ->
  0 <= Sw <= 1 ->
  kr_denominator pow p Sw Wa <> 0 ->
  exists kw kn,
    DynamicWa.twoPhaseSatKrw pow p Sw Wa = Ok kw
    /\ DynamicWa.twoPhaseSatKrn pow p Sw Wa = Ok kn
    /\ kw + kn = 1.
Proof.
  intros Hf Hr Hd.
  exists (krw_spec pow p Sw Wa), (krn_spec pow p Sw Wa).
  rewrite raw_krw_value, raw_krn_value by assumption.
  repeat split. unfold krw_spec, krn_spec.
  set (d := kr_denominator pow p Sw Wa) in *.
  replace (C_spec p Wa * pow Sw (DynamicWaParams.llambda_ p))
    with (d - (1 - Sw)) by (unfold d, kr_denominator; ring).
  field. exact Hd.
Qed.

(** C6.  Whatever the store and the dynamic variable, the regularized krw
    is exactly 0 for Sw <= 0 and exactly 1 for Sw >= 1, and the
    regularized krn is exactly 1 for Sw <= 0 and exactly 0 for Sw >= 1. *)
Theorem reg_kr_hard_clamps (q : t) (Sw Wa : R) :
  (Sw <= 0 -> RegularizedDynamicWa.twoPhaseSatKrw pow q Sw Wa = Ok 0)
  /\ (1 <= Sw -> RegularizedDynamicWa.twoPhaseSatKrw pow q Sw Wa = Ok 1)
  /\ (Sw <= 0 -> RegularizedDynamicWa.twoPhaseSatKrn pow q Sw Wa = Ok 1)
  /\ (1 <= Sw -> RegularizedDynamicWa.twoPhaseSatKrn pow q Sw Wa = Ok 0).
Proof.
  repeat split.
  - apply reg_krw_below.
  - apply reg_krw_above.
  - apply reg_krn_below.
  - apply reg_krn_above.
Qed.

(** C10.  The two relative permeabilities sum to one: for the raw
    evaluator on a finalized store, 0 <= Sw <= 1 and a nonzero shared
    denominator; for the regularized evaluator at every real Sw, the
    denominator mattering only where the raw formula is used
    (0 < Sw < 1), the clamps being the pairs (0, 1) and (1, 0). *)
Theorem kr_sum_to_one :
  (forall (p : DynamicWaParams.t) (Sw Wa : R),
     DynamicWaParams.finalized p = true ->
     0 <= Sw <= 1 ->
     1 - Sw + Rmin (DynamicWaParams.eta_ p * Wa + DynamicWaParams.ei_ p)
                   (DynamicWaParams.ef_ p)
              * pow Sw (DynamicWaParams.llambda_ p) <> 0 ->
     exists kw kn,
       DynamicWa.twoPhaseSatKrw pow p Sw Wa = Ok kw
       /\ DynamicWa.twoPhaseSatKrn pow p Sw Wa = Ok kn
       /\ kw + kn = 1)
  /\ (forall (q : t) (Sw Wa : R),
        DynamicWaParams.finalized (super q) = true ->
        (0 < Sw < 1 ->
         1 - Sw
         + Rmin (DynamicWaParams.eta_ (super q) * Wa
                 + DynamicWaParams.ei_ (super q))
                (DynamicWaParams.ef_ (super q))
           * pow Sw (DynamicWaParams.llambda_ (super q)) <> 0) ->
        exists kw kn,
          RegularizedDynamicWa.twoPhaseSatKrw pow q Sw Wa = Ok kw
          /\ RegularizedDynamicWa.twoPhaseSatKrn pow q Sw Wa = Ok kn
          /\ kw + kn = 1).
Proof.
  split.
  - intros p Sw Wa Hf Hr Hd. apply raw_kr_complementary; assumption.
  - intros q Sw Wa Hf Hd.
    destruct (Rle_dec Sw 0) as [H0 | H0].
    + exists 0, 1.
      rewrite reg_krw_below, reg_krn_below by exact H0.
      repeat split. lra.
    + destruct (Rle_dec 1 Sw) as [H1 | H1].
      * exists 1, 0.
        rewrite reg_krw_above, reg_krn_above by exact H1.
        repeat split. lra.
      * assert (Hm : 0 < Sw < 1) by lra.
        rewrite (reg_krw_mid q Sw Wa Hm), (reg_krn_mid q Sw Wa Hm).
        apply raw_kr_complementary; [exact Hf | lra | exact (Hd Hm)].
Qed.

(** C4.  [finalize] stores exactly four derived values, all taken from the
    raw curve at dynamic variable 0: the raw pc at the threshold; the
    symmetric difference quotient there when both threshold + 1e-7 and
    threshold - 1e-7 stay inside (0, 1), otherwise the one-sided quotient
    with step 1e-7; the raw pc at 1; and the backward one-sided quotient
    at 1.  The call completes whenever the raw curve is defined at the
    threshold, that is for a threshold in [0, 1]. *)
Theorem finalize_derived_values (p : t) :
  let b := DynamicWaParams.finalize (super p) in
  let th := pcnwLowSw_ p in
  let raw := fun s => pc_spec pow b s 0 in
  (0 <= th <= 1 -> exists q, finalize pow p = Ok q)
  /\ (forall q, finalize pow p = Ok q ->
        super q = b
        /\ pcnwLowSw_ q = th
        /\ DynamicWa.twoPhaseSatPcnw pow b th 0 = Ok (pcnwLow_ q)
        /\ pcnwLow_ q = raw th
        /\ (th + 1e-7 < 1 -> 0 < th - 1e-7 ->
            pcnwSlopeLow_ q
            = (raw (th + 1e-7) - raw (th - 1e-7)) / (2 * 1e-7))
        /\ (th + 1e-7 < 1 -> th - 1e-7 <= 0 ->
            pcnwSlopeLow_ q = (raw (th + 1e-7) - raw th) / 1e-7)
        /\ (1 <= th + 1e-7 ->
            pcnwSlopeLow_ q = (raw th - raw (th - 1e-7)) / 1e-7)
        /\ DynamicWa.twoPhaseSatPcnw pow b 1 0 = Ok (pcnwHigh_ q)
        /\ pcnwHigh_ q = raw 1
        /\ pcnwSlopeHigh_ q = (raw 1 - raw (1 - 1e-7)) / 1e-7).
Proof.
  intros b th raw. split.
  - intros Ht. exists (finalized_store pow p).
    apply finalize_in_range. exact Ht.
  - intros q Hq.
    assert (HF : RegFinalized pow q) by (exists p; exact Hq).
    assert (Ht : 0 <= th <= 1).
    { destruct (Rle_dec 0 th) as [H0 | H0];
        [destruct (Rle_dec th 1) as [H1 | H1]; [lra |] |];
        rewrite finalize_out_of_range in Hq by (fold th; lra);
        discriminate. }
    rewrite finalize_in_range in Hq by exact Ht.
    injection Hq as <-. cbn [finalized_store super pcnwLowSw_ pcnwLow_
      pcnwSlopeLow_ pcnwHigh_ pcnwSlopeHigh_].
    fold b th. change 1e-7 with fd_step.
    repeat split.
    + apply raw_pcnw_value; [reflexivity | exact Ht].
    + intros Hu Hl. unfold pc_slope_spec.
      rewrite (ltb_true _ _ Hu), (ltb_true _ _ Hl). reflexivity.
    + intros Hu Hl. unfold pc_slope_spec.
      rewrite (ltb_true _ _ Hu), (ltb_false 0 (th - fd_step)) by exact Hl.
      reflexivity.
    + intros Hu. unfold pc_slope_spec.
      rewrite (ltb_false (th + fd_step) 1) by exact Hu. reflexivity.
    + apply raw_pcnw_value; [reflexivity | lra].
Qed.

(** C7.  Between the threshold and one the regularized evaluator returns
    what the raw evaluator returns, for capillary pressure, krw and krn;
    on the scenario store both capillary pressures at (0.5, 0) are
    1000 * 0.5^(-0.5). *)
Theorem mid_region_passthrough :
  (forall (q : t) (Sw Wa : R),
     RegFinalized pow q ->
     pcnwLowSw_ q < Sw < 1 ->
     (RegularizedDynamicWa.twoPhaseSatPcnw pow q Sw Wa
      = DynamicWa.twoPhaseSatPcnw pow (super q) Sw Wa
      /\ RegularizedDynamicWa.twoPhaseSatKrw pow q Sw Wa
         = DynamicWa.twoPhaseSatKrw pow (super q) Sw Wa
      /\ RegularizedDynamicWa.twoPhaseSatKrn pow q Sw Wa
         = DynamicWa.twoPhaseSatKrn pow (super q) Sw Wa)
     /\ RegularizedDynamicWa.twoPhaseSatPcnw pow q Sw Wa
        = Ok (pc_spec pow (super q) Sw Wa)
     /\ RegularizedDynamicWa.twoPhaseSatKrw pow q Sw Wa
        = Ok (krw_spec pow (super q) Sw Wa)
     /\ RegularizedDynamicWa.twoPhaseSatKrn pow q Sw Wa
        = Ok (krn_spec pow (super q) Sw Wa))
  /\ (exists q,
        finalize pow scenario = Ok q
        /\ DynamicWa.twoPhaseSatPcnw pow (super q) 0.5 0
           = Ok (1000 * pow 0.5 (-0.5))
        /\ RegularizedDynamicWa.twoPhaseSatPcnw pow q 0.5 0
           = Ok (1000 * pow 0.5 (-0.5))).
Proof.
  split.
  - intros q Sw Wa HF Hs.
    pose proof (RegFinalized_flag pow q HF) as Hf.
    pose proof (RegFinalized_threshold pow q HF) as Ht.
    assert (Hm : 0 < Sw < 1) by lra.
    assert (Hr : 0 <= Sw <= 1) by lra.
    rewrite (reg_pcnw_mid pow q Sw Wa Hf Hs).
    rewrite (reg_krw_mid q Sw Wa Hm), (reg_krn_mid q Sw Wa Hm).
    rewrite (raw_pcnw_value pow _ Sw Wa Hf Hr).
    rewrite (raw_krw_value pow _ Sw Wa Hf Hr).
    rewrite (raw_krn_value pow _ Sw Wa Hf Hr).
    repeat split.
  - exists (finalized_store pow scenario).
    assert (Hv : pc_spec pow (super (finalized_store pow scenario)) 0.5 0
                 = 1000 * pow 0.5 (-0.5)).
    { unfold pc_spec. cbn.
      replace (-1 / 2) with (-0.5) by lra.
      unfold Rdiv. ring. }
    split; [| split].
    + apply finalize_in_range. cbn. lra.
    + rewrite raw_pcnw_value by (first [reflexivity | lra]).
      rewrite Hv. reflexivity.
    + rewrite reg_pcnw_mid by (first [reflexivity | cbn; lra]).
      rewrite raw_pcnw_value by (first [reflexivity | lra]).
      rewrite Hv. reflexivity.
Qed.

(** Agreement of the two curves at the region boundaries.  At Sw = 1 the
    regularized and the raw capillary pressure coincide on every finalized
    store whose threshold is below 1; at Sw = threshold they coincide where
    both sample points of the low branch stay in [0, 1], that is for
    1e-7 <= threshold <= 1 - 1e-7. *)
Lemma boundary_continuity (q : t) (Wa : R) :
  RegFinalized pow q ->
  (pcnwLowSw_ q < 1 ->
   exists v1,
     DynamicWa.twoPhaseSatPcnw pow (super q) 1 Wa = Ok v1
     /\ RegularizedDynamicWa.twoPhaseSatPcnw pow q 1 Wa = Ok v1)
  /\ (1e-7 <= pcnwLowSw_ q <= 1 - 1e-7 ->
      exists vt,
        DynamicWa.twoPhaseSatPcnw pow (super q) (pcnwLowSw_ q) Wa = Ok vt
        /\ RegularizedDynamicWa.twoPhaseSatPcnw pow q (pcnwLowSw_ q) Wa
           = Ok vt).
Proof.
  intros HF.
  pose proof (RegFinalized_flag pow q HF) as Hf.
  assert (He : fd_step = 1e-7) by reflexivity.
  split.
  - intros Ht. exists (pc_spec pow (super q) 1 Wa).
    rewrite raw_pcnw_value by (trivial; lra).
    rewrite (reg_pcnw_high pow q 1 Wa Hf) by lra.
    split; f_equal; ring.
  - intros Ht. change 1e-7 with fd_step in Ht.
    exists (pc_spec pow (super q) (pcnwLowSw_ q) Wa).
    rewrite raw_pcnw_value by (trivial; lra).
    rewrite (reg_pcnw_low pow q (pcnwLowSw_ q) Wa Hf Ht) by lra.
    split; f_equal; ring.
Qed.

(** C1, amended.  On a finalized store with threshold t the extrapolation
    is re-derived at the Wa of the call and the four precomputed members
    are not read.  For Sw >= 1 with Sw > t (every Sw >= 1 unless t = 1) the
    result is raw pc(1, Wa) plus the backward difference quotient of the
    raw curve at (1, Wa) times (Sw - 1).  For Sw <= t, and
    1e-7 < t <= 1 - 1e-7, it is raw pc(t, Wa) plus the symmetric difference
    quotient at (t, Wa) times (Sw - t).  At Wa = 0 the high branch equals
    pcnwHigh() + pcnwSlopeHigh() * (Sw - 1), and, for
    1e-7 < t < 1 - 1e-7, the low branch equals
    pcnwLow() + pcnwSlopeLow() * (Sw - t). *)
Theorem extrapolation_at_current_wa (q : t) (Sw Wa : R) :
  RegFinalized pow q ->
  let th := pcnwLowSw_ q in
  let raw := fun s => pc_spec pow (super q) s Wa in
  (1e-7 < th <= 1 - 1e-7 -> Sw <= th ->
   RegularizedDynamicWa.twoPhaseSatPcnw pow q Sw Wa
   = Ok (raw th
         + (raw (th + 1e-7) - raw (th - 1e-7)) / (2 * 1e-7) * (Sw - th)))
  /\ (1 <= Sw -> th < Sw ->
      RegularizedDynamicWa.twoPhaseSatPcnw pow q Sw Wa
      = Ok (raw 1 + (raw 1 - raw (1 - 1e-7)) / 1e-7 * (Sw - 1)))
  /\ (Wa = 0 -> 1 <= Sw -> th < Sw ->
      RegularizedDynamicWa.twoPhaseSatPcnw pow q Sw Wa = pinned_high q Sw)
  /\ (Wa = 0 -> 1e-7 < th < 1 - 1e-7 -> Sw <= th ->
      RegularizedDynamicWa.twoPhaseSatPcnw pow q Sw Wa = pinned_low q Sw).
Proof.
  intros HF th raw. change 1e-7 with fd_step in *.
  pose proof (RegFinalized_flag pow q HF) as Hf.
  assert (He : fd_step = 1e-7) by reflexivity.
  assert (Hlow : fd_step < th <= 1 - fd_step -> Sw <= th ->
                 RegularizedDynamicWa.twoPhaseSatPcnw pow q Sw Wa
                 = Ok (raw th + (raw (th + fd_step) - raw (th - fd_step))
                                / (2 * fd_step) * (Sw - th))).
  { intros Ht Hs. unfold th in Ht.
    rewrite (reg_pcnw_low pow q Sw Wa Hf) by (trivial; lra).
    reflexivity. }
  assert (Hhigh : 1 <= Sw -> th < Sw ->
                  RegularizedDynamicWa.twoPhaseSatPcnw pow q Sw Wa
                  = Ok (raw 1 + (raw 1 - raw (1 - fd_step)) / fd_step
                                * (Sw - 1))).
  { intros Hs Ht.
    rewrite (reg_pcnw_high pow q Sw Wa Hf Ht Hs). reflexivity. }
  split; [exact Hlow | split; [exact Hhigh |]].
  destruct (RegFinalized_inv pow q HF) as [p [Hq Hp]].
  split.
  - intros -> Hs Ht. rewrite (Hhigh Hs Ht).
    unfold pinned_high, pcnwHigh, pcnwSlopeHigh, check.
    rewrite (check_finalized _ Hf). cbn [bind].
    unfold raw. rewrite Hq. reflexivity.
  - intros -> Hin Hs. rewrite (Hlow (conj (proj1 Hin) (Rlt_le _ _ (proj2 Hin))) Hs).
    unfold pinned_low, pcnwLow, pcnwSlopeLow.
    rewrite (pcnwLowSw_finalized q Hf).
    unfold check. rewrite (check_finalized _ Hf). cbn [bind].
    unfold raw, th in *. rewrite Hq in *.
    cbn [finalized_store super pcnwLowSw_ pcnwLow_ pcnwSlopeLow_] in *.
    unfold pc_slope_spec.
    rewrite (ltb_true (pcnwLowSw_ p + fd_step) 1) by lra.
    rewrite (ltb_true 0 (pcnwLowSw_ p - fd_step)) by lra.
    reflexivity.
Qed.

(** Setters leave the flag alone, so a store that was only ever set up has
    it clear. *)
Lemma BaseSetter_flag (f : DynamicWaParams.t -> DynamicWaParams.t)
      (b : DynamicWaParams.t) :
  BaseSetter f -> DynamicWaParams.finalized (f b) = DynamicWaParams.finalized b.
Proof. intros Hs. destruct Hs; reflexivity. Qed.

Lemma NeverFinalized_flag (b : DynamicWaParams.t) :
  NeverFinalized b -> DynamicWaParams.finalized b = false.
Proof.
  induction 1 as [u | f b Hs _ IH].
  - reflexivity.
  - rewrite (BaseSetter_flag f b Hs). exact IH.
Qed.

Lemma RegNeverFinalized_flag (q : t) :
  RegNeverFinalized q -> DynamicWaParams.finalized (super q) = false.
Proof.
  induction 1 as [u | v q _ IH | f q Hs _ IH].
  - reflexivity.
  - exact IH.
  - cbn [onSuper super]. rewrite (BaseSetter_flag f _ Hs). exact IH.
Qed.

Lemma guarded_base_fatal (b : DynamicWaParams.t) :
  DynamicWaParams.finalized b = false ->
  DynamicWaParams.entryPressure b = Fatal
  /\ DynamicWaParams.finalEntryPressure b = Fatal
  /\ DynamicWaParams.lambda b = Fatal
  /\ DynamicWaParams.llambda b = Fatal.
Proof.
  intros Hf.
  unfold DynamicWaParams.entryPressure, DynamicWaParams.finalEntryPressure,
    DynamicWaParams.lambda, DynamicWaParams.llambda.
  rewrite (check_not_finalized b Hf). repeat split.
Qed.

Lemma guarded_base_ok (b : DynamicWaParams.t) :
  DynamicWaParams.finalized b = true ->
  DynamicWaParams.entryPressure b = Ok (DynamicWaParams.entryPressure_ b)
  /\ DynamicWaParams.finalEntryPressure b
     = Ok (DynamicWaParams.finalEntryPressure_ b)
  /\ DynamicWaParams.lambda b = Ok (DynamicWaParams.lambda_ b)
  /\ DynamicWaParams.llambda b = Ok (DynamicWaParams.llambda_ b).
Proof.
  intros Hf.
  unfold DynamicWaParams.entryPressure, DynamicWaParams.finalEntryPressure,
    DynamicWaParams.lambda, DynamicWaParams.llambda.
  rewrite (check_finalized b Hf). repeat split.
Qed.

(** C5.  On a store on which [finalize] was never called every guarded
    accessor fails fatally: entryPressure, finalEntryPressure, lambda,
    llambda, and on the regularized store also pcnwLowSw, pcnwLow,
    pcnwSlopeLow, pcnwHigh, pcnwSlopeHigh.  After [finalize] each of them
    succeeds and returns the stored member, which is the value last set.
    beta, eta, ei and ef never check and succeed on every store. *)
Theorem finalize_before_use :
  (forall b : DynamicWaParams.t,
     NeverFinalized b ->
     DynamicWaParams.entryPressure b = Fatal
     /\ DynamicWaParams.finalEntryPressure b = Fatal
     /\ DynamicWaParams.lambda b = Fatal
     /\ DynamicWaParams.llambda b = Fatal)
  /\ (forall q : t,
        RegNeverFinalized q ->
        (DynamicWaParams.entryPressure (super q) = Fatal
         /\ DynamicWaParams.finalEntryPressure (super q) = Fatal
         /\ DynamicWaParams.lambda (super q) = Fatal
         /\ DynamicWaParams.llambda (super q) = Fatal)
        /\ pcnwLowSw q = Fatal
        /\ pcnwLow q = Fatal
        /\ pcnwSlopeLow q = Fatal
        /\ pcnwHigh q = Fatal
        /\ pcnwSlopeHigh q = Fatal)
  /\ (forall (b : DynamicWaParams.t) (v : R),
        let fin := DynamicWaParams.finalize in
        (DynamicWaParams.entryPressure (fin b)
         = Ok (DynamicWaParams.entryPressure_ b)
         /\ DynamicWaParams.finalEntryPressure (fin b)
            = Ok (DynamicWaParams.finalEntryPressure_ b)
         /\ DynamicWaParams.lambda (fin b) = Ok (DynamicWaParams.lambda_ b)
         /\ DynamicWaParams.llambda (fin b)
            = Ok (DynamicWaParams.llambda_ b))
        /\ DynamicWaParams.entryPressure
             (fin (DynamicWaParams.setEntryPressure v b)) = Ok v
        /\ DynamicWaParams.finalEntryPressure
             (fin (DynamicWaParams.setFinalEntryPressure v b)) = Ok v
        /\ DynamicWaParams.lambda (fin (DynamicWaParams.setLambda v b)) = Ok v
        /\ DynamicWaParams.llambda (fin (DynamicWaParams.setLlambda v b))
           = Ok v)
  /\ (forall p q : t,
        finalize pow p = Ok q ->
        (DynamicWaParams.entryPressure (super q)
         = Ok (DynamicWaParams.entryPressure_ (super p))
         /\ DynamicWaParams.finalEntryPressure (super q)
            = Ok (DynamicWaParams.finalEntryPressure_ (super p))
         /\ DynamicWaParams.lambda (super q)
            = Ok (DynamicWaParams.lambda_ (super p))
         /\ DynamicWaParams.llambda (super q)
            = Ok (DynamicWaParams.llambda_ (super p)))
        /\ pcnwLowSw q = Ok (pcnwLowSw_ p)
        /\ pcnwLow q = Ok (pcnwLow_ q)
        /\ pcnwSlopeLow q = Ok (pcnwSlopeLow_ q)
        /\ pcnwHigh q = Ok (pcnwHigh_ q)
        /\ pcnwSlopeHigh q = Ok (pcnwSlopeHigh_ q))
  /\ (forall (p : t) (v : R),
        0 <= v <= 1 ->
        exists q, finalize pow (setPcLowSw v p) = Ok q
                  /\ pcnwLowSw q = Ok v)
  /\ (forall b : DynamicWaParams.t,
        DynamicWaParams.beta b = Ok (DynamicWaParams.beta_ b)
        /\ DynamicWaParams.eta b = Ok (DynamicWaParams.eta_ b)
        /\ DynamicWaParams.ei b = Ok (DynamicWaParams.ei_ b)
        /\ DynamicWaParams.ef b = Ok (DynamicWaParams.ef_ b)).
Proof.
  split; [| split; [| split; [| split; [| split]]]].
  - intros b Hb. apply guarded_base_fatal, NeverFinalized_flag, Hb.
  - intros q Hq. pose proof (RegNeverFinalized_flag q Hq) as Hf.
    split; [apply guarded_base_fatal, Hf |].
    unfold pcnwLowSw, pcnwLow, pcnwSlopeLow, pcnwHigh, pcnwSlopeHigh, check.
    rewrite (check_not_finalized _ Hf). repeat split.
  - intros b v fin. repeat split.
  - intros p q Hq.
    assert (HF : RegFinalized pow q) by (exists p; exact Hq).
    pose proof (RegFinalized_flag pow q HF) as Hf.
    destruct (RegFinalized_inv pow q HF) as [p' [Hq' Hp']].
    assert (Hp : 0 <= pcnwLowSw_ p <= 1).
    { destruct (Rle_dec 0 (pcnwLowSw_ p)) as [H0 | H0];
        [destruct (Rle_dec (pcnwLowSw_ p) 1) as [H1 | H1]; [lra |] |];
        rewrite finalize_out_of_range in Hq by lra; discriminate. }
    rewrite finalize_in_range in Hq by exact Hp.
    injection Hq as <-.
    split; [repeat split |].
    unfold pcnwLowSw, pcnwLow, pcnwSlopeLow, pcnwHigh, pcnwSlopeHigh, check.
    repeat split.
  - intros p v Hv. exists (finalized_store pow (setPcLowSw v p)).
    split; [apply finalize_in_range; exact Hv | reflexivity].
  - intros b. repeat split.
Qed.

(** Where the extrapolation slope is not positive, the value at or below
    the threshold is not below the value at the threshold. *)
Lemma reg_pcnw_low_monotone (q : t) (Sw Wa : R) :
  DynamicWaParams.finalized (super q) = true ->
  fd_step <= pcnwLowSw_ q <= 1 - fd_step ->
  Sw <= pcnwLowSw_ q ->
  pc_spec pow (super q) (pcnwLowSw_ q + fd_step) Wa
  <= pc_spec pow (super q) (pcnwLowSw_ q - fd_step) Wa ->
  exists v vt,
    RegularizedDynamicWa.twoPhaseSatPcnw pow q Sw Wa = Ok v
    /\ RegularizedDynamicWa.twoPhaseSatPcnw pow q (pcnwLowSw_ q) Wa = Ok vt
    /\ vt <= v.
Proof.
  intros Hf Ht Hs Hmono.
  rewrite (reg_pcnw_low pow q Sw Wa Hf Ht Hs).
  rewrite (reg_pcnw_low pow q (pcnwLowSw_ q) Wa Hf Ht) by lra.
  eexists; eexists. split; [reflexivity | split; [reflexivity |]].
  unfold pc_symmetric_slope.
  set (a := pc_spec pow (super q) (pcnwLowSw_ q + fd_step) Wa) in *.
  set (b := pc_spec pow (super q) (pcnwLowSw_ q - fd_step) Wa) in *.
  assert (Hm : (a - b) / (2 * fd_step) <= 0).
  { unfold Rdiv. unfold fd_step. 
    assert (0 < / (2 * 1e-7)) by (apply Rinv_0_lt_compat; lra).
    nra. }
  nra.
Qed.

(** With no dynamic contribution the raw curve is the entry pressure times
    the power term. *)
Lemma pc_spec_wa_zero (b : DynamicWaParams.t) (s : R) :
  pc_spec pow b s 0
  = DynamicWaParams.entryPressure_ b
    * pow s (-1 / DynamicWaParams.lambda_ b).
Proof. unfold pc_spec, Rdiv. ring. Qed.

(** C9, amended.  On a finalized store whose threshold t satisfies
    1e-7 < t <= 1 - 1e-7, for every Wa at which the raw curve does not
    rise across the threshold, raw pc(t + 1e-7, Wa) <= raw pc(t - 1e-7, Wa),
    and every Sw <= t, regularized pc(Sw, Wa) >= regularized pc(t, Wa).
    This is the case at Wa = 0 for a positive entry pressure, a positive
    lambda and a nonzero beta, the power function being non-increasing in
    its base for a negative exponent. *)
Theorem low_extrapolation_monotone :
  (forall (q : t) (Sw Wa : R),
     RegFinalized pow q ->
     1e-7 < pcnwLowSw_ q <= 1 - 1e-7 ->
     Sw <= pcnwLowSw_ q ->
     pc_spec pow (super q) (pcnwLowSw_ q + 1e-7) Wa
     <= pc_spec pow (super q) (pcnwLowSw_ q - 1e-7) Wa ->
     exists v vt,
       RegularizedDynamicWa.twoPhaseSatPcnw pow q Sw Wa = Ok v
       /\ RegularizedDynamicWa.twoPhaseSatPcnw pow q (pcnwLowSw_ q) Wa
          = Ok vt
       /\ v >= vt)
  /\ (forall (q : t) (Sw : R),
        (forall y a b, y < 0 -> 0 < a -> a <= b -> pow b y <= pow a y) ->
        RegFinalized pow q ->
        1e-7 < pcnwLowSw_ q <= 1 - 1e-7 ->
        0 < DynamicWaParams.entryPressure_ (super q) ->
        0 < DynamicWaParams.lambda_ (super q) ->
        DynamicWaParams.beta_ (super q) <> 0 ->
        Sw <= pcnwLowSw_ q ->
        exists v vt,
          RegularizedDynamicWa.twoPhaseSatPcnw pow q Sw 0 = Ok v
          /\ RegularizedDynamicWa.twoPhaseSatPcnw pow q (pcnwLowSw_ q) 0
             = Ok vt
          /\ v >= vt).
Proof.
  split.
  - intros q Sw Wa HF Ht Hs Hmono.
    pose proof (RegFinalized_flag pow q HF) as Hf.
    assert (Ht' : fd_step <= pcnwLowSw_ q <= 1 - fd_step)
      by (unfold fd_step; lra).
    destruct (reg_pcnw_low_monotone q Sw Wa Hf Ht' Hs Hmono)
      as (v & vt & Hv & Hvt & Hle).
    exists v, vt. repeat split; [exact Hv | exact Hvt | lra].
  - intros q Sw Hpow HF Ht Hpe Hl _ Hs.
    pose proof (RegFinalized_flag pow q HF) as Hf.
    change 1e-7 with fd_step in Ht.
    assert (He : fd_step = 1e-7) by reflexivity.
    assert (Hmono : pc_spec pow (super q) (pcnwLowSw_ q + fd_step) 0
                    <= pc_spec pow (super q) (pcnwLowSw_ q - fd_step) 0).
    { rewrite !pc_spec_wa_zero.
      apply Rmult_le_compat_l; [lra |].
      apply Hpow; [| lra | lra].
      unfold Rdiv.
      assert (0 < / DynamicWaParams.lambda_ (super q))
        by (apply Rinv_0_lt_compat; exact Hl).
      lra. }
    assert (Ht' : fd_step <= pcnwLowSw_ q <= 1 - fd_step) by lra.
    destruct (reg_pcnw_low_monotone q Sw 0 Hf Ht' Hs Hmono)
      as (v & vt & Hv & Hvt & Hle).
    exists v, vt. repeat split; [exact Hv | exact Hvt | lra].
Qed.

End RegularizedClaims.

(** ** Concrete evaluations with [std_pow] *)

Lemma std_pow_one (y : R) : std_pow 1 y = 1.
Proof.
  unfold std_pow, Rpower. rewrite ln_1, Rmult_0_r. apply exp_0.
Qed.

Lemma std_pow_pos (x y : R) : 0 < std_pow x y.
Proof. unfold std_pow, Rpower. apply exp_pos. Qed.

Lemma std_pow_inv_sqrt (x : R) : 0 < x -> std_pow x (-1 / 2) = / sqrt x.
Proof.
  intros Hx. unfold std_pow.
  replace (-1 / 2) with (- / 2) by lra.
  rewrite Rpower_Ropp, Rpower_sqrt by exact Hx. reflexivity.
Qed.

Lemma std_pow_antitone (y a b : R) :
  y < 0 -> 0 < a -> a <= b -> std_pow b y <= std_pow a y.
Proof.
  intros Hy Ha [Hab | ->]; [| lra].
  left. unfold std_pow, Rpower. apply exp_increasing.
  assert (ln a < ln b) by (apply ln_increasing; assumption).
  nra.
Qed.

Lemma scenario_finalize :
  RegularizedDynamicWaParams.finalize std_pow scenario
  = Ok (finalized_store std_pow scenario).
Proof. apply finalize_in_range. store. lra. Qed.

Lemma scenario_RegFinalized :
  RegFinalized std_pow (finalized_store std_pow scenario).
Proof. exists scenario. exact scenario_finalize. Qed.

Lemma steep_finalize :
  RegularizedDynamicWaParams.finalize std_pow steep
  = Ok (finalized_store std_pow steep).
Proof. apply finalize_in_range. store. lra. Qed.

Lemma tiny_threshold_finalize :
  RegularizedDynamicWaParams.finalize std_pow tiny_threshold
  = Ok (finalized_store std_pow tiny_threshold).
Proof. apply finalize_in_range. store. lra. Qed.

Lemma scenario_never_finalized : RegNeverFinalized scenario.
Proof.
  unfold scenario, setup.
  apply rnf_setPcLowSw.
  repeat (apply rnf_inherited; [constructor |]).
  apply rnf_ctor.
Qed.

(** Raw capillary pressure of the scenario at saturation 1. *)
Lemma scenario_pc_at_one (Wa : R) :
  0.1 + Wa <> 0 ->
  pc_spec std_pow
    (RegularizedDynamicWaParams.super (finalized_store std_pow scenario))
    1 Wa
  = 1000 * (1 + 4 * (Wa / (0.1 + Wa))).
Proof.
  intros Hd. unfold pc_spec. store. rewrite std_pow_one. field.
  replace (1 / 10 + Wa) with (0.1 + Wa) by lra. lra.
Qed.

(** Raw capillary pressure of the steep store at dynamic variable 2.5. *)
Lemma steep_pc (s : R) :
  0 < s ->
  pc_spec std_pow
    (RegularizedDynamicWaParams.super (finalized_store std_pow steep)) s 2.5
  = 1000 * / sqrt s * ((1 + 425 * s) / (1 + 25 * s)).
Proof.
  intros Hs. unfold pc_spec. store. rewrite (std_pow_inv_sqrt s Hs).
  assert (0 < sqrt s) by (apply sqrt_lt_R0; exact Hs).
  replace 2.5 with (5 / 2) by lra. replace 0.1 with (1 / 10) by lra.
  field. lra.
Qed.

(** Across the threshold the steep store's raw curve rises. *)
Lemma steep_rises :
  let b := RegularizedDynamicWaParams.super (finalized_store std_pow steep) in
  pc_spec std_pow b (0.01 - 1e-7) 2.5 < pc_spec std_pow b (0.01 + 1e-7) 2.5.
Proof.
  intros b. unfold b.
  rewrite !steep_pc by lra.
  set (x := 0.01 + 1e-7). set (y := 0.01 - 1e-7).
  assert (Hx : 0 < x) by (unfold x; lra).
  assert (Hy : 0 < y) by (unfold y; lra).
  assert (Hsx : 0 < sqrt x) by (apply sqrt_lt_R0; exact Hx).
  assert (Hsy : 0 < sqrt y) by (apply sqrt_lt_R0; exact Hy).
  assert (Hxx : sqrt x * sqrt x = x) by (apply sqrt_sqrt; lra).
  assert (Hyy : sqrt y * sqrt y = y) by (apply sqrt_sqrt; lra).
  assert (Hxv : x = 100001 / 10000000) by (unfold x; lra).
  assert (Hyv : y = 99999 / 10000000) by (unfold y; lra).
  assert (HBx : (1 + 425 * x) / (1 + 25 * x) = 2100017 / 500001)
    by (rewrite Hxv; field).
  assert (HBy : (1 + 425 * y) / (1 + 25 * y) = 2099983 / 499999)
    by (rewrite Hyv; field).
  rewrite HBx, HBy.
  (* B(y)/sqrt y < B(x)/sqrt x follows from B(y)^2 x < B(x)^2 y. *)
  assert (Hsq : (2099983 / 499999) * (2099983 / 499999) * x
                < (2100017 / 500001) * (2100017 / 500001) * y)
    by (rewrite Hxv, Hyv; lra).
  assert (Hcross : 2099983 / 499999 * sqrt x < 2100017 / 500001 * sqrt y).
  { destruct (Rlt_dec (2099983 / 499999 * sqrt x)
                      (2100017 / 500001 * sqrt y)) as [Hlt | Hge];
      [exact Hlt | exfalso].
    apply Rnot_lt_le in Hge.
    assert (Hp : 0 < 2100017 / 500001 * sqrt y) by nra.
    assert (Hq : (2100017 / 500001 * sqrt y) * (2100017 / 500001 * sqrt y)
                 <= (2099983 / 499999 * sqrt x)
                    * (2099983 / 499999 * sqrt x)) by nra.
    nra. }
  assert (Hix : / sqrt x * sqrt x = 1) by (field; lra).
  assert (Hiy : / sqrt y * sqrt y = 1) by (field; lra).
  assert (Hipx : 0 < / sqrt x) by (apply Rinv_0_lt_compat; exact Hsx).
  assert (Hipy : 0 < / sqrt y) by (apply Rinv_0_lt_compat; exact Hsy).
  assert (Hprod : 0 < / sqrt x * / sqrt y) by nra.
  assert (Hgoal : 2099983 / 499999 * / sqrt y < 2100017 / 500001 * / sqrt x).
  { replace (2099983 / 499999 * / sqrt y)
      with ((2099983 / 499999 * sqrt x) * (/ sqrt x * / sqrt y))
      by (field; lra).
    replace (2100017 / 500001 * / sqrt x)
      with ((2100017 / 500001 * sqrt y) * (/ sqrt x * / sqrt y))
      by (field; lra).
    apply Rmult_lt_compat_r; assumption. }
  lra.
Qed.

(** ** Counterexamples *)

(** With the threshold at 5e-8 the low branch aborts: its lower sample
    point, threshold - 1e-7, is a negative saturation. *)
Lemma tiny_threshold_aborts (Sw Wa : R) :
  Sw <= 5e-8 ->
  RegularizedDynamicWa.twoPhaseSatPcnw std_pow
    (finalized_store std_pow tiny_threshold) Sw Wa = Fatal.
Proof.
  intros Hs. apply reg_pcnw_low_fatal.
  - reflexivity.
  - store. lra.
  - store. unfold fd_step. lra.
  - store. exact Hs.
Qed.

(** C1 as stated fails twice.  On the scenario store at Sw = 1, Wa = 0.1
    the evaluator returns 3000, the raw curve at the Wa of the call, whereas
    pcnwHigh() + pcnwSlopeHigh() * (Sw - 1) is 1000.  On the store with
    threshold 5e-8, at Sw = threshold and Wa = 0, the evaluator aborts
    whereas pcnwLow() + pcnwSlopeLow() * (Sw - threshold) is a value. *)
Lemma pinned_extrapolation_counterexample :
  (RegularizedDynamicWaParams.finalize std_pow scenario
   = Ok (finalized_store std_pow scenario)
   /\ RegularizedDynamicWa.twoPhaseSatPcnw std_pow
        (finalized_store std_pow scenario) 1 0.1 = Ok 3000
   /\ pinned_high (finalized_store std_pow scenario) 1 = Ok 1000
   /\ RegularizedDynamicWa.twoPhaseSatPcnw std_pow
        (finalized_store std_pow scenario) 1 0.1
      <> pinned_high (finalized_store std_pow scenario) 1)
  /\ (RegularizedDynamicWaParams.finalize std_pow tiny_threshold
      = Ok (finalized_store std_pow tiny_threshold)
      /\ RegularizedDynamicWa.twoPhaseSatPcnw std_pow
           (finalized_store std_pow tiny_threshold) 5e-8 0 = Fatal
      /\ pinned_low (finalized_store std_pow tiny_threshold) 5e-8
         = Ok (RegularizedDynamicWaParams.pcnwLow_
                 (finalized_store std_pow tiny_threshold)
               + RegularizedDynamicWaParams.pcnwSlopeLow_
                   (finalized_store std_pow tiny_threshold)
                 * (5e-8 - 5e-8))).
Proof.
  assert (Hreg : RegularizedDynamicWa.twoPhaseSatPcnw std_pow
                   (finalized_store std_pow scenario) 1 0.1 = Ok 3000).
  { rewrite reg_pcnw_high by (first [reflexivity | store; lra]).
    rewrite scenario_pc_at_one by lra. f_equal. lra. }
  assert (Hpin : pinned_high (finalized_store std_pow scenario) 1 = Ok 1000).
  { unfold pinned_high, RegularizedDynamicWaParams.pcnwHigh,
      RegularizedDynamicWaParams.pcnwSlopeHigh,
      RegularizedDynamicWaParams.check.
    rewrite check_finalized by reflexivity. cbn [bind].
    f_equal.
    change (RegularizedDynamicWaParams.pcnwHigh_
              (finalized_store std_pow scenario))
      with (pc_spec std_pow
              (RegularizedDynamicWaParams.super
                 (finalized_store std_pow scenario)) 1 0).
    rewrite scenario_pc_at_one by lra. lra. }
  split.
  - split; [exact scenario_finalize |].
    split; [exact Hreg |].
    split; [exact Hpin |].
    rewrite Hreg, Hpin. intros H. injection H as H. lra.
  - split; [exact tiny_threshold_finalize |].
    split; [apply tiny_threshold_aborts; lra |].
    reflexivity.
Qed.

(** C8.  A defect of the evaluator breaks the continuity at the low
    threshold.  On the scenario store with the threshold set to 5e-8 and
    finalized, the raw capillary pressure at Sw = threshold, Wa = 0 is
    1000 * (5e-8)^(-1/2), but the regularized evaluator aborts there: its
    low branch samples the raw curve at threshold - 1e-7, a negative
    saturation, and trips the raw curve's assertion.  The finite
    difference of the parameter class guards exactly this sample point
    and returns the forward quotient at the same threshold.  At Sw = 1 the
    two curves agree on this store. *)
Theorem boundary_abort_at_tiny_threshold :
  RegularizedDynamicWaParams.finalize std_pow tiny_threshold
  = Ok (finalized_store std_pow tiny_threshold)
  /\ RegularizedDynamicWaParams.pcnwLowSw_
       (finalized_store std_pow tiny_threshold) = 5e-8
  /\ DynamicWa.twoPhaseSatPcnw std_pow
       (RegularizedDynamicWaParams.super
          (finalized_store std_pow tiny_threshold)) 5e-8 0
     = Ok (1000 * std_pow 5e-8 (-1 / 2))
  /\ RegularizedDynamicWa.twoPhaseSatPcnw std_pow
       (finalized_store std_pow tiny_threshold) 5e-8 0 = Fatal
  /\ DynamicWa.twoPhaseSatPcnw std_pow
       (RegularizedDynamicWaParams.super
          (finalized_store std_pow tiny_threshold)) (5e-8 - 1e-7) 0 = Fatal
  /\ RegularizedDynamicWaParams.dPcnw_dSw_ std_pow
       (finalized_store std_pow tiny_threshold) 5e-8
     = Ok (pc_forward_slope std_pow
             (RegularizedDynamicWaParams.super
                (finalized_store std_pow tiny_threshold)) 5e-8 0)
  /\ RegularizedDynamicWa.twoPhaseSatPcnw std_pow
       (finalized_store std_pow tiny_threshold) 1 0
     = DynamicWa.twoPhaseSatPcnw std_pow
         (RegularizedDynamicWaParams.super
            (finalized_store std_pow tiny_threshold)) 1 0.
Proof.
  split; [exact tiny_threshold_finalize |].
  split; [reflexivity |].
  split; [| split; [| split; [| split]]].
  - rewrite raw_pcnw_value by (first [reflexivity | lra]).
    f_equal. rewrite pc_spec_wa_zero. reflexivity.
  - apply tiny_threshold_aborts. lra.
  - apply raw_pcnw_out_of_range. lra.
  - rewrite dPcnw_dSw_value by (first [reflexivity | lra]).
    f_equal. unfold pc_slope_spec.
    rewrite (ltb_true (5e-8 + fd_step) 1) by (unfold fd_step; lra).
    rewrite (ltb_false 0 (5e-8 - fd_step)) by (unfold fd_step; lra).
    reflexivity.
  - rewrite reg_pcnw_high by (first [reflexivity | store; lra | lra]).
    rewrite raw_pcnw_value by (first [reflexivity | lra]).
    f_equal.
    set (b := RegularizedDynamicWaParams.super
                (finalized_store std_pow tiny_threshold)).
    ring.
Qed.

(** C9 as stated fails twice.  On the steep store (entry pressure 1000 and
    lambda 2, both positive) at Wa = 2.5, just below the threshold 0.01 the
    regularized capillary pressure is smaller than at the threshold.  On
    the store with threshold 5e-8 (same positive entry pressure and lambda)
    at Wa = 0 there is nothing to compare: the evaluator aborts at and
    below the threshold. *)
Lemma low_extrapolation_counterexample :
  (RegularizedDynamicWaParams.finalize std_pow steep
   = Ok (finalized_store std_pow steep)
   /\ 0 < DynamicWaParams.entryPressure_
            (RegularizedDynamicWaParams.super (finalized_store std_pow steep))
   /\ 0 < DynamicWaParams.lambda_
            (RegularizedDynamicWaParams.super (finalized_store std_pow steep))
   /\ RegularizedDynamicWaParams.pcnwLowSw_ (finalized_store std_pow steep)
      = 0.01
   /\ exists v vt,
        RegularizedDynamicWa.twoPhaseSatPcnw std_pow
          (finalized_store std_pow steep) 0.0099 2.5 = Ok v
        /\ RegularizedDynamicWa.twoPhaseSatPcnw std_pow
             (finalized_store std_pow steep) 0.01 2.5 = Ok vt
        /\ v < vt)
  /\ (RegularizedDynamicWaParams.finalize std_pow tiny_threshold
      = Ok (finalized_store std_pow tiny_threshold)
      /\ RegularizedDynamicWa.twoPhaseSatPcnw std_pow
           (finalized_store std_pow tiny_threshold) 4e-8 0 = Fatal
      /\ RegularizedDynamicWa.twoPhaseSatPcnw std_pow
           (finalized_store std_pow tiny_threshold) 5e-8 0 = Fatal).
Proof.
  split.
  - split; [exact steep_finalize |].
    split; [store; lra |].
    split; [store; lra |].
    split; [reflexivity |].
    rewrite (reg_pcnw_low std_pow (finalized_store std_pow steep) 0.0099 2.5)
      by (first [reflexivity | store; unfold fd_step; lra]).
    rewrite (reg_pcnw_low std_pow (finalized_store std_pow steep) 0.01 2.5)
      by (first [reflexivity | store; unfold fd_step; lra]).
    eexists; eexists. split; [reflexivity | split; [reflexivity |]].
    pose proof steep_rises as Hr. cbv zeta in Hr.
    unfold pc_symmetric_slope.
    change (RegularizedDynamicWaParams.pcnwLowSw_
              (finalized_store std_pow steep)) with 0.01.
    change fd_step with 1e-7.
    set (b := RegularizedDynamicWaParams.super
                (finalized_store std_pow steep)) in *.
    set (hi := pc_spec std_pow b (0.01 + 1e-7) 2.5) in *.
    set (lo := pc_spec std_pow b (0.01 - 1e-7) 2.5) in *.
    assert (Hm : 0 < (hi - lo) / (2 * 1e-7)).
    { unfold Rdiv.
      assert (0 < / (2 * 1e-7)) by (apply Rinv_0_lt_compat; lra).
      nra. }
    nra.
  - split; [exact tiny_threshold_finalize |].
    split; apply tiny_threshold_aborts; lra.
Qed.

(** ** The theorems at concrete inputs *)

Lemma raw_pcnw_closed_form_witness :
  DynamicWa.twoPhaseSatPcnw std_pow
    (DynamicWaParams.finalize (RegularizedDynamicWaParams.super scenario))
    0.5 0
  = Ok (1000 * std_pow 0.5 (-1 / 2)
        * (1 + (5000 / 1000 - 1) * ((0.5 * 0) / (0.1 + 0.5 * 0)))).
Proof.
  apply (raw_pcnw_closed_form std_pow
           (DynamicWaParams.finalize (RegularizedDynamicWaParams.super scenario))
           0.5 0).
  - reflexivity.
  - lra.
Defined.

Lemma raw_kr_closed_forms_witness :
  DynamicWa.twoPhaseSatKrw std_pow
    (DynamicWaParams.finalize (RegularizedDynamicWaParams.super scenario))
    0.5 0
  = Ok (Rmin (1 * 0 + 0.5) 2 * std_pow 0.5 3
        / (1 - 0.5 + Rmin (1 * 0 + 0.5) 2 * std_pow 0.5 3))
  /\ DynamicWa.twoPhaseSatKrn std_pow
       (DynamicWaParams.finalize (RegularizedDynamicWaParams.super scenario))
       0.5 0
     = Ok ((1 - 0.5) / (1 - 0.5 + Rmin (1 * 0 + 0.5) 2 * std_pow 0.5 3)).
Proof.
  apply (raw_kr_closed_forms std_pow
           (DynamicWaParams.finalize (RegularizedDynamicWaParams.super scenario))
           0.5 0).
  - reflexivity.
  - lra.
Defined.

Lemma reg_kr_hard_clamps_witness :
  RegularizedDynamicWa.twoPhaseSatKrw std_pow scenario (-1) 0 = Ok 0
  /\ RegularizedDynamicWa.twoPhaseSatKrw std_pow scenario 2 0 = Ok 1
  /\ RegularizedDynamicWa.twoPhaseSatKrn std_pow scenario (-1) 0 = Ok 1
  /\ RegularizedDynamicWa.twoPhaseSatKrn std_pow scenario 2 0 = Ok 0.
Proof.
  destruct (reg_kr_hard_clamps std_pow scenario (-1) 0) as (Hw & _ & Hn & _).
  destruct (reg_kr_hard_clamps std_pow scenario 2 0) as (_ & Hw' & _ & Hn').
  repeat split.
  - apply Hw. lra.
  - apply Hw'. lra.
  - apply Hn. lra.
  - apply Hn'. lra.
Defined.

Lemma kr_sum_to_one_witness :
  exists kw kn,
    DynamicWa.twoPhaseSatKrw std_pow
      (DynamicWaParams.finalize (RegularizedDynamicWaParams.super scenario))
      0.5 0 = Ok kw
    /\ DynamicWa.twoPhaseSatKrn std_pow
         (DynamicWaParams.finalize (RegularizedDynamicWaParams.super scenario))
         0.5 0 = Ok kn
    /\ kw + kn = 1.
Proof.
  apply (proj1 (kr_sum_to_one std_pow)).
  - reflexivity.
  - lra.
  - store.
    assert (Hp : 0 < std_pow 0.5 3) by apply std_pow_pos.
    assert (Hm : Rmin (1 * 0 + 0.5) 2 = 1 * 0 + 0.5)
      by (apply Rmin_left; lra).
    rewrite Hm. lra.
Defined.

Lemma finalize_derived_values_witness :
  exists q, RegularizedDynamicWaParams.finalize std_pow scenario = Ok q.
Proof.
  apply (proj1 (finalize_derived_values std_pow scenario)).
  store. lra.
Defined.

Lemma finalize_before_use_witness :
  RegularizedDynamicWaParams.pcnwLowSw scenario = Fatal
  /\ RegularizedDynamicWaParams.pcnwLowSw (finalized_store std_pow scenario)
     = Ok 0.01.
Proof.
  destruct (finalize_before_use std_pow) as (_ & Hnever & _ & Hafter & _).
  split.
  - apply (Hnever scenario scenario_never_finalized).
  - apply (Hafter scenario (finalized_store std_pow scenario)
             scenario_finalize).
Defined.

Lemma mid_region_passthrough_witness :
  RegularizedDynamicWa.twoPhaseSatPcnw std_pow
    (finalized_store std_pow scenario) 0.5 0
  = DynamicWa.twoPhaseSatPcnw std_pow
      (RegularizedDynamicWaParams.super (finalized_store std_pow scenario))
      0.5 0.
Proof.
  apply (proj1 (mid_region_passthrough std_pow)
           (finalized_store std_pow scenario) 0.5 0).
  - exact scenario_RegFinalized.
  - store. lra.
Defined.

Lemma boundary_continuity_witness :
  exists vt,
    DynamicWa.twoPhaseSatPcnw std_pow
      (RegularizedDynamicWaParams.super (finalized_store std_pow scenario))
      0.01 0.1 = Ok vt
    /\ RegularizedDynamicWa.twoPhaseSatPcnw std_pow
         (finalized_store std_pow scenario) 0.01 0.1 = Ok vt.
Proof.
  apply (proj2 (boundary_continuity std_pow
                  (finalized_store std_pow scenario) 0.1
                  scenario_RegFinalized)).
  store. lra.
Defined.

Lemma extrapolation_at_current_wa_witness :
  RegularizedDynamicWa.twoPhaseSatPcnw std_pow
    (finalized_store std_pow scenario) 0.005 0.1
  = Ok (pc_spec std_pow
          (RegularizedDynamicWaParams.super
             (finalized_store std_pow scenario)) 0.01 0.1
        + (pc_spec std_pow
             (RegularizedDynamicWaParams.super
                (finalized_store std_pow scenario)) (0.01 + 1e-7) 0.1
           - pc_spec std_pow
               (RegularizedDynamicWaParams.super
                  (finalized_store std_pow scenario)) (0.01 - 1e-7) 0.1)
          / (2 * 1e-7) * (0.005 - 0.01))
  /\ RegularizedDynamicWa.twoPhaseSatPcnw std_pow
       (finalized_store std_pow scenario) 1.5 0.1
     = Ok (pc_spec std_pow
             (RegularizedDynamicWaParams.super
                (finalized_store std_pow scenario)) 1 0.1
           + (pc_spec std_pow
                (RegularizedDynamicWaParams.super
                   (finalized_store std_pow scenario)) 1 0.1
              - pc_spec std_pow
                  (RegularizedDynamicWaParams.super
                     (finalized_store std_pow scenario)) (1 - 1e-7) 0.1)
             / 1e-7 * (1.5 - 1))
  /\ RegularizedDynamicWa.twoPhaseSatPcnw std_pow
       (finalized_store std_pow scenario) 1.5 0
     = pinned_high (finalized_store std_pow scenario) 1.5
  /\ RegularizedDynamicWa.twoPhaseSatPcnw std_pow
       (finalized_store std_pow scenario) 0.005 0
     = pinned_low (finalized_store std_pow scenario) 0.005.
Proof.
  split; [| split; [| split]].
  - apply (proj1 (extrapolation_at_current_wa std_pow
                    (finalized_store std_pow scenario) 0.005 0.1
                    scenario_RegFinalized)).
    + store. lra.
    + store. lra.
  - apply (proj1 (proj2 (extrapolation_at_current_wa std_pow
                           (finalized_store std_pow scenario) 1.5 0.1
                           scenario_RegFinalized))).
    + lra.
    + store. lra.
  - apply (proj1 (proj2 (proj2 (extrapolation_at_current_wa std_pow
                                  (finalized_store std_pow scenario) 1.5 0
                                  scenario_RegFinalized)))).
    + reflexivity.
    + lra.
    + store. lra.
  - apply (proj2 (proj2 (proj2 (extrapolation_at_current_wa std_pow
                                  (finalized_store std_pow scenario) 0.005 0
                                  scenario_RegFinalized)))).
    + reflexivity.
    + store. lra.
    + store. lra.
Defined.

Lemma low_extrapolation_monotone_witness :
  exists v vt,
    RegularizedDynamicWa.twoPhaseSatPcnw std_pow
      (finalized_store std_pow scenario) 0.005 0 = Ok v
    /\ RegularizedDynamicWa.twoPhaseSatPcnw std_pow
         (finalized_store std_pow scenario) 0.01 0 = Ok vt
    /\ v >= vt.
Proof.
  apply (proj2 (low_extrapolation_monotone std_pow)
           (finalized_store std_pow scenario) 0.005).
  - exact std_pow_antitone.
  - exact scenario_RegFinalized.
  - store. lra.
  - store. lra.
  - store. lra.
  - store. lra.
  - store. lra.
Defined.


(** ** Further properties of the four classes *)

Section Domains.

Variable pow : R -> R -> R.

Lemma raw_krw_out_of_range (p : DynamicWaParams.t) (Sw Wa : R) :
  ~ (0 <= Sw <= 1) -> DynamicWa.twoPhaseSatKrw pow p Sw Wa = Fatal.
Proof.
  intros Hr. unfold DynamicWa.twoPhaseSatKrw.
  rewrite (out_of_range Sw Hr). reflexivity.
Qed.

Lemma raw_krn_out_of_range (p : DynamicWaParams.t) (Sw Wa : R) :
  ~ (0 <= Sw <= 1) -> DynamicWa.twoPhaseSatKrn pow p Sw Wa = Fatal.
Proof.
  intros Hr. unfold DynamicWa.twoPhaseSatKrn.
  rewrite (out_of_range Sw Hr). reflexivity.
Qed.

Lemma raw_pcnw_not_finalized (p : DynamicWaParams.t) (Sw Wa : R) :
  DynamicWaParams.finalized p = false ->
  DynamicWa.twoPhaseSatPcnw pow p Sw Wa = Fatal.
Proof.
  intros Hf. unfold DynamicWa.twoPhaseSatPcnw,
    DynamicWaParams.finalEntryPressure.
  rewrite (check_not_finalized p Hf).
  destruct (assert (leb 0.0 Sw && leb Sw 1.0)); reflexivity.
Qed.

Lemma raw_krw_not_finalized (p : DynamicWaParams.t) (Sw Wa : R) :
  DynamicWaParams.finalized p = false ->
  DynamicWa.twoPhaseSatKrw pow p Sw Wa = Fatal.
Proof.
  intros Hf. unfold DynamicWa.twoPhaseSatKrw, DynamicWaParams.llambda,
    DynamicWaParams.eta, DynamicWaParams.ei, DynamicWaParams.ef.
  rewrite (check_not_finalized p Hf).
  destruct (assert (leb 0.0 Sw && leb Sw 1.0)); reflexivity.
Qed.

Lemma raw_krn_not_finalized (p : DynamicWaParams.t) (Sw Wa : R) :
  DynamicWaParams.finalized p = false ->
  DynamicWa.twoPhaseSatKrn pow p Sw Wa = Fatal.
Proof.
  intros Hf. unfold DynamicWa.twoPhaseSatKrn, DynamicWaParams.llambda,
    DynamicWaParams.eta, DynamicWaParams.ei, DynamicWaParams.ef.
  rewrite (check_not_finalized p Hf).
  destruct (assert (leb 0.0 Sw && leb Sw 1.0)); reflexivity.
Qed.

(** A call that returned a value was made on a finalized store with a
    saturation in range. *)
Lemma defined_inv (p : DynamicWaParams.t) (Sw : R) (r : result R) :
  (DynamicWaParams.finalized p = false -> r = Fatal) ->
  (~ (0 <= Sw <= 1) -> r = Fatal) ->
  (exists v, r = Ok v) ->
  DynamicWaParams.finalized p = true /\ 0 <= Sw <= 1.
Proof.
  intros Hnf Hout [v Hv]. split.
  - destruct (DynamicWaParams.finalized p) eqn:Hf; [reflexivity |].
    rewrite (Hnf eq_refl) in Hv. discriminate.
  - destruct (Rle_dec 0 Sw) as [H0 | H0];
      [destruct (Rle_dec Sw 1) as [H1 | H1]; [lra |] |];
      rewrite Hout in Hv by lra; discriminate.
Qed.

(** X1.  Each raw curve returns a value exactly when the store is finalized
    and the saturation lies in [0, 1]; in every other case the call is
    fatal. *)
Theorem raw_defined_iff (p : DynamicWaParams.t) (Sw Wa : R) :
  ((exists v, DynamicWa.twoPhaseSatPcnw pow p Sw Wa = Ok v)
   <-> DynamicWaParams.finalized p = true /\ 0 <= Sw <= 1)
  /\ ((exists v, DynamicWa.twoPhaseSatKrw pow p Sw Wa = Ok v)
      <-> DynamicWaParams.finalized p = true /\ 0 <= Sw <= 1)
  /\ ((exists v, DynamicWa.twoPhaseSatKrn pow p Sw Wa = Ok v)
      <-> DynamicWaParams.finalized p = true /\ 0 <= Sw <= 1).
Proof.
  split; [| split]; split.
  - apply defined_inv;
      [apply raw_pcnw_not_finalized | apply raw_pcnw_out_of_range].
  - intros [Hf Hr]. eexists. apply raw_pcnw_value; assumption.
  - apply defined_inv;
      [apply raw_krw_not_finalized | apply raw_krw_out_of_range].
  - intros [Hf Hr]. eexists. apply raw_krw_value; assumption.
  - apply defined_inv;
      [apply raw_krn_not_finalized | apply raw_krn_out_of_range].
  - intros [Hf Hr]. eexists. apply raw_krn_value; assumption.
Qed.

Import RegularizedDynamicWaParams.

Lemma reg_pcnw_not_finalized (q : t) (Sw Wa : R) :
  DynamicWaParams.finalized (super q) = false ->
  RegularizedDynamicWa.twoPhaseSatPcnw pow q Sw Wa = Fatal.
Proof.
  intros Hf. unfold RegularizedDynamicWa.twoPhaseSatPcnw, pcnwLowSw, check.
  rewrite (check_not_finalized _ Hf). reflexivity.
Qed.

Lemma reg_krw_defined (q : t) (Sw Wa : R) :
  DynamicWaParams.finalized (super q) = true ->
  exists v, RegularizedDynamicWa.twoPhaseSatKrw pow q Sw Wa = Ok v.
Proof.
  intros Hf.
  destruct (Rle_dec Sw 0) as [H0 | H0];
    [| destruct (Rle_dec 1 Sw) as [H1 | H1]].
  - eexists. apply reg_krw_below. exact H0.
  - eexists. apply reg_krw_above. exact H1.
  - eexists. rewrite reg_krw_mid by lra.
    apply raw_krw_value; [exact Hf | lra].
Qed.

Lemma reg_krn_defined (q : t) (Sw Wa : R) :
  DynamicWaParams.finalized (super q) = true ->
  exists v, RegularizedDynamicWa.twoPhaseSatKrn pow q Sw Wa = Ok v.
Proof.
  intros Hf.
  destruct (Rle_dec Sw 0) as [H0 | H0];
    [| destruct (Rle_dec 1 Sw) as [H1 | H1]].
  - eexists. apply reg_krn_below. exact H0.
  - eexists. apply reg_krn_above. exact H1.
  - eexists. rewrite reg_krn_mid by lra.
    apply raw_krn_value; [exact Hf | lra].
Qed.

Lemma reg_pcnw_defined (q : t) (Sw Wa : R) :
  DynamicWaParams.finalized (super q) = true ->
  fd_step <= pcnwLowSw_ q <= 1 - fd_step ->
  exists v, RegularizedDynamicWa.twoPhaseSatPcnw pow q Sw Wa = Ok v.
Proof.
  intros Hf Ht.
  assert (He : fd_step = 1e-7) by reflexivity.
  destruct (Rle_dec Sw (pcnwLowSw_ q)) as [Hl | Hl];
    [| destruct (Rle_dec 1 Sw) as [Hh | Hh]].
  - eexists. apply reg_pcnw_low; assumption.
  - eexists. apply reg_pcnw_high; [exact Hf | lra | exact Hh].
  - eexists. rewrite reg_pcnw_mid by (trivial; lra).
    apply raw_pcnw_value; [exact Hf | lra].
Qed.

(** X2.  On a store that is not finalized the regularized capillary
    pressure is fatal at every input, while the regularized relative
    permeabilities still return their clamp constants outside (0, 1) and
    are fatal only inside: each returns a value exactly when Sw <= 0, or
    Sw >= 1, or the store is finalized. *)
Theorem reg_defined_without_finalize (q : t) (Sw Wa : R) :
  (DynamicWaParams.finalized (super q) = false ->
   RegularizedDynamicWa.twoPhaseSatPcnw pow q Sw Wa = Fatal)
  /\ ((exists v, RegularizedDynamicWa.twoPhaseSatKrw pow q Sw Wa = Ok v)
      <-> Sw <= 0 \/ 1 <= Sw
          \/ DynamicWaParams.finalized (super q) = true)
  /\ ((exists v, RegularizedDynamicWa.twoPhaseSatKrn pow q Sw Wa = Ok v)
      <-> Sw <= 0 \/ 1 <= Sw
          \/ DynamicWaParams.finalized (super q) = true).
Proof.
  split; [apply reg_pcnw_not_finalized |].
  split; split.
  - intros [v Hv].
    destruct (Rle_dec Sw 0) as [H0 | H0]; [left; exact H0 |].
    destruct (Rle_dec 1 Sw) as [H1 | H1]; [right; left; exact H1 |].
    right; right.
    destruct (DynamicWaParams.finalized (super q)) eqn:Hf; [reflexivity |].
    rewrite reg_krw_mid in Hv by lra.
    rewrite raw_krw_not_finalized in Hv by exact Hf. discriminate.
  - intros [H0 | [H1 | Hf]].
    + eexists. apply reg_krw_below. exact H0.
    + eexists. apply reg_krw_above. exact H1.
    + apply reg_krw_defined. exact Hf.
  - intros [v Hv].
    destruct (Rle_dec Sw 0) as [H0 | H0]; [left; exact H0 |].
    destruct (Rle_dec 1 Sw) as [H1 | H1]; [right; left; exact H1 |].
    right; right.
    destruct (DynamicWaParams.finalized (super q)) eqn:Hf; [reflexivity |].
    rewrite reg_krn_mid in Hv by lra.
    rewrite raw_krn_not_finalized in Hv by exact Hf. discriminate.
  - intros [H0 | [H1 | Hf]].
    + eexists. apply reg_krn_below. exact H0.
    + eexists. apply reg_krn_above. exact H1.
    + apply reg_krn_defined. exact Hf.
Qed.

(** X3.  On a finalized store whose threshold t satisfies
    1e-7 < t <= 1 - 1e-7 the regularized batch entry points return a value
    for every fluid state, whatever its saturations: the capillary pressure
    pair has 0 in the wetting slot, and both permeabilities are defined. *)
Theorem regularized_total (q : t) (fs : FluidState) :
  RegFinalized pow q ->
  1e-7 < pcnwLowSw_ q <= 1 - 1e-7 ->
  (exists pc, RegularizedDynamicWa.capillaryPressures pow q fs = Ok (0, pc))
  /\ (exists kw kn,
        RegularizedDynamicWa.relativePermeabilities pow q fs = Ok (kw, kn)).
Proof.
  intros HF Ht.
  pose proof (RegFinalized_flag pow q HF) as Hf.
  assert (Ht' : fd_step <= pcnwLowSw_ q <= 1 - fd_step)
    by (unfold fd_step; lra).
  split.
  - unfold RegularizedDynamicWa.capillaryPressures,
      RegularizedDynamicWa.pcnw.
    destruct (reg_pcnw_defined q (saturation fs wettingPhaseIdx) (wa fs)
                Hf Ht') as [v Hv].
    exists v. rewrite Hv. cbn [bind]. do 2 f_equal. lra.
  - unfold RegularizedDynamicWa.relativePermeabilities,
      RegularizedDynamicWa.krw, RegularizedDynamicWa.krn.
    destruct (reg_krw_defined q (saturation fs wettingPhaseIdx) (wa fs) Hf)
      as [kw Hkw].
    destruct (reg_krn_defined q (1.0 - saturation fs nonWettingPhaseIdx)
                (wa fs) Hf) as [kn Hkn].
    exists kw, kn. rewrite Hkw. cbn [bind]. rewrite Hkn. reflexivity.
Qed.

(** X4.  The raw batch entry points abort on a fluid state whose wetting
    saturation lies outside [0, 1], on every store. *)
Theorem raw_batch_out_of_range (p : DynamicWaParams.t) (fs : FluidState) :
  ~ (0 <= saturation fs wettingPhaseIdx <= 1) ->
  DynamicWa.capillaryPressures pow p fs = Fatal
  /\ DynamicWa.relativePermeabilities pow p fs = Fatal.
Proof.
  intros Hr. split.
  - unfold DynamicWa.capillaryPressures, DynamicWa.pcnw.
    rewrite (out_of_range _ Hr). reflexivity.
  - unfold DynamicWa.relativePermeabilities, DynamicWa.krw.
    rewrite raw_krw_out_of_range by exact Hr. reflexivity.
Qed.

End Domains.

Section Lifecycle.

Variable pow : R -> R -> R.

Import RegularizedDynamicWaParams.

Lemma finalized_store_idempotent (p : t) :
  finalized_store pow (finalized_store pow p) = finalized_store pow p.
Proof. reflexivity. Qed.

(** X5.  Finalizing twice changes nothing: a second [finalize] on the
    store the first one returned completes and returns that same store,
    flag, threshold and all four derived members. *)
Theorem finalize_idempotent (p q : t) :
  finalize pow p = Ok q -> finalize pow q = Ok q.
Proof.
  intros Hq.
  assert (HF : RegFinalized pow q) by (exists p; exact Hq).
  destruct (RegFinalized_inv pow q HF) as [p' [-> Hp']].
  rewrite finalize_in_range by exact Hp'.
  rewrite finalized_store_idempotent. reflexivity.
Qed.

(** X6.  No setter touches the flag or the derived members: after any
    inherited setter, or after [setPcLowSw], a finalized store still
    answers every guarded accessor, and pcnwLow, pcnwSlopeLow, pcnwHigh and
    pcnwSlopeHigh return what they returned before, not values re-derived
    from the new coefficients. *)
Theorem setters_leave_derived_members (q : t) :
  DynamicWaParams.finalized (super q) = true ->
  (forall f, BaseSetter f ->
     DynamicWaParams.finalized (super (onSuper f q)) = true
     /\ pcnwLowSw (onSuper f q) = Ok (pcnwLowSw_ q)
     /\ pcnwLow (onSuper f q) = Ok (pcnwLow_ q)
     /\ pcnwSlopeLow (onSuper f q) = Ok (pcnwSlopeLow_ q)
     /\ pcnwHigh (onSuper f q) = Ok (pcnwHigh_ q)
     /\ pcnwSlopeHigh (onSuper f q) = Ok (pcnwSlopeHigh_ q))
  /\ (forall v,
        pcnwLowSw (setPcLowSw v q) = Ok v
        /\ pcnwLow (setPcLowSw v q) = Ok (pcnwLow_ q)
        /\ pcnwSlopeLow (setPcLowSw v q) = Ok (pcnwSlopeLow_ q)
        /\ pcnwHigh (setPcLowSw v q) = Ok (pcnwHigh_ q)
        /\ pcnwSlopeHigh (setPcLowSw v q) = Ok (pcnwSlopeHigh_ q)).
Proof.
  intros Hf. split.
  - intros f Hs.
    assert (Hf' : DynamicWaParams.finalized (super (onSuper f q)) = true).
    { cbn [onSuper super]. rewrite (BaseSetter_flag f _ Hs). exact Hf. }
    split; [exact Hf' |].
    unfold pcnwLowSw, pcnwLow, pcnwSlopeLow, pcnwHigh, pcnwSlopeHigh, check.
    rewrite (check_finalized _ Hf'). repeat split.
  - intros v.
    unfold pcnwLowSw, pcnwLow, pcnwSlopeLow, pcnwHigh, pcnwSlopeHigh, check.
    cbn [setPcLowSw super].
    rewrite (check_finalized _ Hf). repeat split.
Qed.

(** X7.  The two-argument constructors finalize on their own.  On the base
    class the guarded accessors answer at once, entryPressure and lambda
    with the constructor arguments.  On the regularized class the
    construction completes for every pair of arguments, with threshold
    0.01, and the four derived members are those of the raw curve built
    from the arguments. *)
Theorem two_argument_constructors (ePressure shapeParam : R) :
  (forall u : DynamicWaParams.t,
     let p := DynamicWaParams.ctor2 u ePressure shapeParam in
     DynamicWaParams.entryPressure p = Ok ePressure
     /\ DynamicWaParams.lambda p = Ok shapeParam
     /\ (exists v, DynamicWaParams.finalEntryPressure p = Ok v)
     /\ (exists v, DynamicWaParams.llambda p = Ok v))
  /\ (forall u : t,
        exists q,
          ctor2 pow u ePressure shapeParam = Ok q
          /\ pcnwLowSw q = Ok 0.01
          /\ DynamicWaParams.entryPressure (super q) = Ok ePressure
          /\ DynamicWaParams.lambda (super q) = Ok shapeParam
          /\ pcnwLow q = Ok (pc_spec pow (super q) 0.01 0)
          /\ pcnwSlopeLow q = Ok (pc_symmetric_slope pow (super q) 0.01 0)
          /\ pcnwHigh q = Ok (pc_spec pow (super q) 1 0)
          /\ pcnwSlopeHigh q = Ok (pc_backward_slope pow (super q) 1 0)).
Proof.
  split.
  - intros u p. unfold p. repeat split; eexists; reflexivity.
  - intros u. eexists. split.
    + unfold ctor2. apply finalize_in_range. cbn [pcnwLowSw_]. lra.
    + repeat split.
      unfold pcnwSlopeLow, check. cbn [finalized_store super pcnwSlopeLow_
        pcnwLowSw_ bind].
      rewrite check_finalized by reflexivity. cbn [bind]. f_equal.
      unfold pc_slope_spec.
      rewrite (ltb_true (0.01 + fd_step) 1) by (unfold fd_step; lra).
      rewrite (ltb_true 0 (0.01 - fd_step)) by (unfold fd_step; lra).
      reflexivity.
Qed.

End Lifecycle.

Section CurveShape.

Variable pow : R -> R -> R.

Import DynamicWaParams.

(** X8.  With the dynamic variable at 0 the raw capillary pressure is the
    Brooks-Corey curve EntryPressure * Sw^(-1/lambda): the final entry
    pressure and beta drop out (entry pressure and beta nonzero, so that
    the quotients of the source are defined). *)
Theorem pcnw_without_dynamic_variable (p : t) (Sw : R) :
  finalized p = true ->
  0 <= Sw <= 1 ->
  entryPressure_ p <> 0 ->
  beta_ p <> 0 ->
  DynamicWa.twoPhaseSatPcnw pow p Sw 0
  = Ok (entryPressure_ p * pow Sw (-1 / lambda_ p)).
Proof.
  intros Hf Hr _ _.
  rewrite (raw_pcnw_value pow p Sw 0 Hf Hr), pc_spec_wa_zero. reflexivity.
Qed.

(** X9.  The dynamic variable moves the raw capillary pressure between two
    Brooks-Corey curves: for 0 < EntryPressure <= FinalEntryPressure,
    beta > 0, Wa >= 0 and a non-negative power term, the result lies
    between EntryPressure * Sw^(-1/lambda) and
    FinalEntryPressure * Sw^(-1/lambda). *)
Theorem pcnw_between_entry_pressures (p : t) (Sw Wa : R) :
  finalized p = true ->
  0 <= Sw <= 1 ->
  0 < entryPressure_ p <= finalEntryPressure_ p ->
  0 < beta_ p ->
  0 <= Wa ->
  0 <= pow Sw (-1 / lambda_ p) ->
  exists v,
    DynamicWa.twoPhaseSatPcnw pow p Sw Wa = Ok v
    /\ entryPressure_ p * pow Sw (-1 / lambda_ p) <= v
    /\ v <= finalEntryPressure_ p * pow Sw (-1 / lambda_ p).
Proof.
  intros Hf Hr [Hpe Hpf] Hb Hwa Hpow.
  eexists. split; [apply raw_pcnw_value; assumption |].
  unfold pc_spec.
  set (P := pow Sw (-1 / lambda_ p)) in *.
  set (r := Sw * Wa / (beta_ p + Sw * Wa)).
  assert (Hu : 0 <= Sw * Wa) by nra.
  assert (Hd : 0 < beta_ p + Sw * Wa) by lra.
  assert (Hr01 : 0 <= r <= 1).
  { unfold r, Rdiv.
    assert (Hi : 0 < / (beta_ p + Sw * Wa))
      by (apply Rinv_0_lt_compat; exact Hd).
    assert (Hone : (beta_ p + Sw * Wa) * / (beta_ p + Sw * Wa) = 1)
      by (apply Rinv_r; lra).
    split; nra. }
  assert (Hk : entryPressure_ p
               * (finalEntryPressure_ p / entryPressure_ p - 1)
               = finalEntryPressure_ p - entryPressure_ p)
    by (field; lra).
  replace (entryPressure_ p * P
           * (1 + (finalEntryPressure_ p / entryPressure_ p - 1) * r))
    with ((entryPressure_ p
           + (finalEntryPressure_ p - entryPressure_ p) * r) * P)
    by (rewrite <- Hk; ring).
  assert (Hlo : 0 <= (finalEntryPressure_ p - entryPressure_ p) * r)
    by (apply Rmult_le_pos; lra).
  assert (Hhi : (finalEntryPressure_ p - entryPressure_ p) * r
                <= finalEntryPressure_ p - entryPressure_ p) by nra.
  split; apply Rmult_le_compat_r; lra.
Qed.

(** X10.  Once eta*Wa + Ei has reached Ef the relative permeabilities no
    longer depend on the dynamic variable: two values of Wa at or beyond
    the clamp give the same krw and the same krn, on every store and at
    every saturation. *)
Theorem kr_saturates_in_wa (p : t) (Sw Wa1 Wa2 : R) :
  ef_ p <= eta_ p * Wa1 + ei_ p ->
  ef_ p <= eta_ p * Wa2 + ei_ p ->
  DynamicWa.twoPhaseSatKrw pow p Sw Wa1 = DynamicWa.twoPhaseSatKrw pow p Sw Wa2
  /\ DynamicWa.twoPhaseSatKrn pow p Sw Wa1
     = DynamicWa.twoPhaseSatKrn pow p Sw Wa2.
Proof.
  intros H1 H2.
  unfold DynamicWa.twoPhaseSatKrw, DynamicWa.twoPhaseSatKrn, eta, ei, ef.
  cbn [bind].
  rewrite (Rmin_right _ _ H1), (Rmin_right _ _ H2). split; reflexivity.
Qed.

(** The raw permeabilities stay in [0, 1] where the clamped coefficient and
    the power term are non-negative and the denominator is positive. *)
Lemma raw_kr_bounds (p : t) (Sw Wa : R) :
  finalized p = true ->
  0 <= Sw <= 1 ->
  0 <= eta_ p * Wa + ei_ p ->
  0 <= ef_ p ->
  0 <= pow Sw (llambda_ p) ->
  0 < kr_denominator pow p Sw Wa ->
  exists kw kn,
    DynamicWa.twoPhaseSatKrw pow p Sw Wa = Ok kw
    /\ DynamicWa.twoPhaseSatKrn pow p Sw Wa = Ok kn
    /\ 0 <= kw <= 1 /\ 0 <= kn <= 1.
Proof.
  intros Hf Hr Hc1 Hc2 Hp Hd.
  exists (krw_spec pow p Sw Wa), (krn_spec pow p Sw Wa).
  rewrite raw_krw_value, raw_krn_value by assumption.
  split; [reflexivity | split; [reflexivity |]].
  unfold krw_spec, krn_spec.
  assert (HC : 0 <= C_spec p Wa) by (unfold C_spec; apply Rmin_glb; assumption).
  set (d := kr_denominator pow p Sw Wa) in *.
  assert (Hn : 0 <= C_spec p Wa * pow Sw (llambda_ p)) by nra.
  assert (Hdn : d = 1 - Sw + C_spec p Wa * pow Sw (llambda_ p))
    by reflexivity.
  assert (Hi : 0 < / d) by (apply Rinv_0_lt_compat; exact Hd).
  assert (Hone : d * / d = 1) by (apply Rinv_r; lra).
  unfold Rdiv. repeat split; nra.
Qed.

End CurveShape.

Section RegularizedShape.

Variable pow : R -> R -> R.

Import RegularizedDynamicWaParams.

(** X11.  The regularized relative permeabilities stay in [0, 1] at every
    real saturation, provided the clamped coefficient is non-negative
    (eta*Wa + Ei >= 0 and Ef >= 0) and the power term is non-negative
    inside (0, 1). *)
Theorem reg_kr_within_unit_interval (q : t) (Sw Wa : R) :
  DynamicWaParams.finalized (super q) = true ->
  0 <= DynamicWaParams.eta_ (super q) * Wa + DynamicWaParams.ei_ (super q) ->
  0 <= DynamicWaParams.ef_ (super q) ->
  (0 < Sw < 1 -> 0 <= pow Sw (DynamicWaParams.llambda_ (super q))) ->
  exists kw kn,
    RegularizedDynamicWa.twoPhaseSatKrw pow q Sw Wa = Ok kw
    /\ RegularizedDynamicWa.twoPhaseSatKrn pow q Sw Wa = Ok kn
    /\ 0 <= kw <= 1 /\ 0 <= kn <= 1.
Proof.
  intros Hf Hc1 Hc2 Hp.
  destruct (Rle_dec Sw 0) as [H0 | H0];
    [| destruct (Rle_dec 1 Sw) as [H1 | H1]].
  - exists 0, 1. rewrite reg_krw_below, reg_krn_below by exact H0.
    repeat split; lra.
  - exists 1, 0. rewrite reg_krw_above, reg_krn_above by exact H1.
    repeat split; lra.
  - assert (Hm : 0 < Sw < 1) by lra.
    rewrite (reg_krw_mid pow q Sw Wa Hm), (reg_krn_mid pow q Sw Wa Hm).
    pose proof (Hp Hm) as Hpm.
    apply raw_kr_bounds;
      [exact Hf | lra | exact Hc1 | exact Hc2 | exact Hpm |].
    unfold kr_denominator.
    assert (HC : 0 <= C_spec (super q) Wa)
      by (unfold C_spec; apply Rmin_glb; assumption).
    nra.
Qed.

(** X12.  For a fluid state whose two saturations sum to one, the pair
    returned by the regularized [relativePermeabilities] sums to one (the
    shared denominator being nonzero where the raw formula is used). *)
Theorem relativePermeabilities_sum (q : t) (fs : FluidState) :
  DynamicWaParams.finalized (super q) = true ->
  saturation fs wettingPhaseIdx + saturation fs nonWettingPhaseIdx = 1 ->
  (0 < saturation fs wettingPhaseIdx < 1 ->
   kr_denominator pow (super q) (saturation fs wettingPhaseIdx) (wa fs)
   <> 0) ->
  exists kw kn,
    RegularizedDynamicWa.relativePermeabilities pow q fs = Ok (kw, kn)
    /\ kw + kn = 1.
Proof.
  intros Hf Hsum Hd.
  unfold RegularizedDynamicWa.relativePermeabilities,
    RegularizedDynamicWa.krw, RegularizedDynamicWa.krn.
  replace (1.0 - saturation fs nonWettingPhaseIdx)
    with (saturation fs wettingPhaseIdx) by lra.
  set (Sw := saturation fs wettingPhaseIdx) in *.
  destruct (Rle_dec Sw 0) as [H0 | H0];
    [| destruct (Rle_dec 1 Sw) as [H1 | H1]].
  - exists 0, 1. rewrite reg_krw_below, reg_krn_below by exact H0.
    split; [reflexivity | lra].
  - exists 1, 0. rewrite reg_krw_above, reg_krn_above by exact H1.
    split; [reflexivity | lra].
  - assert (Hm : 0 < Sw < 1) by lra.
    rewrite (reg_krw_mid pow q Sw (wa fs) Hm),
      (reg_krn_mid pow q Sw (wa fs) Hm).
    destruct (raw_kr_complementary pow (super q) Sw (wa fs) Hf)
      as (kw & kn & Hkw & Hkn & Hs); [lra | exact (Hd Hm) |].
    exists kw, kn. rewrite Hkw. cbn [bind]. rewrite Hkn. cbn [bind].
    split; [reflexivity | exact Hs].
Qed.

(** X13.  The clamps of the regularized permeabilities meet the raw curves
    at both ends.  At Sw = 1 the raw krw is 1 and the raw krn is 0 as soon
    as C(Wa) * 1^Lambda is nonzero; at Sw = 0 the raw krw is 0 and the raw
    krn is 1 as soon as 0^Lambda is 0.  So the regularized and the raw
    values agree there. *)
Theorem reg_kr_meets_raw_at_ends (q : t) (Wa : R) :
  DynamicWaParams.finalized (super q) = true ->
  (C_spec (super q) Wa * pow 1 (DynamicWaParams.llambda_ (super q)) <> 0 ->
   DynamicWa.twoPhaseSatKrw pow (super q) 1 Wa = Ok 1
   /\ DynamicWa.twoPhaseSatKrn pow (super q) 1 Wa = Ok 0
   /\ RegularizedDynamicWa.twoPhaseSatKrw pow q 1 Wa
      = DynamicWa.twoPhaseSatKrw pow (super q) 1 Wa
   /\ RegularizedDynamicWa.twoPhaseSatKrn pow q 1 Wa
      = DynamicWa.twoPhaseSatKrn pow (super q) 1 Wa)
  /\ (pow 0 (DynamicWaParams.llambda_ (super q)) = 0 ->
      DynamicWa.twoPhaseSatKrw pow (super q) 0 Wa = Ok 0
      /\ DynamicWa.twoPhaseSatKrn pow (super q) 0 Wa = Ok 1
      /\ RegularizedDynamicWa.twoPhaseSatKrw pow q 0 Wa
         = DynamicWa.twoPhaseSatKrw pow (super q) 0 Wa
      /\ RegularizedDynamicWa.twoPhaseSatKrn pow q 0 Wa
         = DynamicWa.twoPhaseSatKrn pow (super q) 0 Wa).
Proof.
  intros Hf. split.
  - intros Hc.
    assert (Hw : DynamicWa.twoPhaseSatKrw pow (super q) 1 Wa = Ok 1).
    { rewrite raw_krw_value by (trivial; lra). f_equal.
      unfold krw_spec, kr_denominator.
      replace (1 - 1 + C_spec (super q) Wa
                       * pow 1 (DynamicWaParams.llambda_ (super q)))
        with (C_spec (super q) Wa
              * pow 1 (DynamicWaParams.llambda_ (super q))) by ring.
      unfold Rdiv. apply Rinv_r. exact Hc. }
    assert (Hn : DynamicWa.twoPhaseSatKrn pow (super q) 1 Wa = Ok 0).
    { rewrite raw_krn_value by (trivial; lra). f_equal.
      unfold krn_spec, Rdiv. ring. }
    rewrite Hw, Hn, reg_krw_above, reg_krn_above by lra.
    repeat split.
  - intros Hz.
    assert (Hw : DynamicWa.twoPhaseSatKrw pow (super q) 0 Wa = Ok 0).
    { rewrite raw_krw_value by (trivial; lra). f_equal.
      unfold krw_spec. rewrite Hz. unfold Rdiv. ring. }
    assert (Hn : DynamicWa.twoPhaseSatKrn pow (super q) 0 Wa = Ok 1).
    { rewrite raw_krn_value by (trivial; lra). f_equal.
      unfold krn_spec, kr_denominator. rewrite Hz. field. }
    rewrite Hw, Hn, reg_krw_below, reg_krn_below by lra.
    repeat split.
Qed.

End RegularizedShape.

Section Extrapolation.

Variable pow : R -> R -> R.

Import RegularizedDynamicWaParams.

(** X14.  Outside the raw region the regularized capillary pressure is
    affine in the saturation: for two saturations both at or below the
    threshold, or both at or above one, the value at their midpoint is the
    mean of their values (finalized store, threshold t with
    1e-7 < t <= 1 - 1e-7). *)
Theorem reg_pcnw_affine_outside (q : t) (a b Wa : R) :
  RegFinalized pow q ->
  1e-7 < pcnwLowSw_ q <= 1 - 1e-7 ->
  (a <= pcnwLowSw_ q /\ b <= pcnwLowSw_ q) \/ (1 <= a /\ 1 <= b) ->
  exists va vb vm,
    RegularizedDynamicWa.twoPhaseSatPcnw pow q a Wa = Ok va
    /\ RegularizedDynamicWa.twoPhaseSatPcnw pow q b Wa = Ok vb
    /\ RegularizedDynamicWa.twoPhaseSatPcnw pow q ((a + b) / 2) Wa = Ok vm
    /\ vm = (va + vb) / 2.
Proof.
  intros HF Ht Hab.
  pose proof (RegFinalized_flag pow q HF) as Hf.
  assert (Ht' : fd_step <= pcnwLowSw_ q <= 1 - fd_step)
    by (unfold fd_step; lra).
  destruct Hab as [[Ha Hb] | [Ha Hb]].
  - rewrite !(reg_pcnw_low pow q _ Wa Hf Ht') by lra.
    do 3 eexists. repeat split. lra.
  - rewrite !(reg_pcnw_high pow q _ Wa Hf) by lra.
    do 3 eexists. repeat split. lra.
Qed.

End Extrapolation.

(** ** The further properties at concrete inputs *)

Lemma std_pow_posexp_zero (y : R) : std_pow_posexp 0 y = 0.
Proof.
  unfold std_pow_posexp. destruct (Req_dec_T 0 0); [reflexivity | lra].
Qed.

Lemma std_pow_posexp_one (y : R) : std_pow_posexp 1 y = 1.
Proof.
  unfold std_pow_posexp. destruct (Req_dec_T 1 0); [lra |].
  apply std_pow_one.
Qed.

Lemma scenario_flag :
  DynamicWaParams.finalized
    (RegularizedDynamicWaParams.super (finalized_store std_pow scenario))
  = true.
Proof. reflexivity. Qed.

Lemma raw_defined_iff_witness :
  exists v,
    DynamicWa.twoPhaseSatPcnw std_pow
      (RegularizedDynamicWaParams.super (finalized_store std_pow scenario))
      0.5 0.2 = Ok v.
Proof.
  apply (proj1 (raw_defined_iff std_pow
                  (RegularizedDynamicWaParams.super
                     (finalized_store std_pow scenario)) 0.5 0.2)).
  split; [reflexivity | lra].
Defined.

Lemma reg_defined_without_finalize_witness :
  RegularizedDynamicWa.twoPhaseSatPcnw std_pow scenario 0.5 0.2 = Fatal.
Proof.
  apply (proj1 (reg_defined_without_finalize std_pow scenario 0.5 0.2)).
  reflexivity.
Defined.

Lemma regularized_total_witness :
  (exists pc,
     RegularizedDynamicWa.capillaryPressures std_pow
       (finalized_store std_pow scenario) overfull_state = Ok (0, pc))
  /\ (exists kw kn,
        RegularizedDynamicWa.relativePermeabilities std_pow
          (finalized_store std_pow scenario) overfull_state = Ok (kw, kn)).
Proof.
  apply (regularized_total std_pow (finalized_store std_pow scenario)
           overfull_state).
  - exact scenario_RegFinalized.
  - store. lra.
Defined.

Lemma raw_batch_out_of_range_witness :
  DynamicWa.capillaryPressures std_pow
    (RegularizedDynamicWaParams.super (finalized_store std_pow scenario))
    overfull_state = Fatal
  /\ DynamicWa.relativePermeabilities std_pow
       (RegularizedDynamicWaParams.super (finalized_store std_pow scenario))
       overfull_state = Fatal.
Proof.
  apply (raw_batch_out_of_range std_pow
           (RegularizedDynamicWaParams.super
              (finalized_store std_pow scenario)) overfull_state).
  cbn [overfull_state saturation]. lra.
Defined.

Lemma finalize_idempotent_witness :
  RegularizedDynamicWaParams.finalize std_pow
    (finalized_store std_pow scenario)
  = Ok (finalized_store std_pow scenario).
Proof.
  apply (finalize_idempotent std_pow scenario
           (finalized_store std_pow scenario)).
  exact scenario_finalize.
Defined.

Lemma setters_leave_derived_members_witness :
  RegularizedDynamicWaParams.pcnwLow
    (RegularizedDynamicWaParams.onSuper
       (DynamicWaParams.setEntryPressure 2000)
       (finalized_store std_pow scenario))
  = Ok (RegularizedDynamicWaParams.pcnwLow_
          (finalized_store std_pow scenario)).
Proof.
  apply (proj1 (setters_leave_derived_members
                  (finalized_store std_pow scenario) scenario_flag)
           (DynamicWaParams.setEntryPressure 2000)).
  constructor.
Defined.

Lemma pcnw_without_dynamic_variable_witness :
  DynamicWa.twoPhaseSatPcnw std_pow
    (RegularizedDynamicWaParams.super (finalized_store std_pow scenario))
    0.5 0
  = Ok (1000 * std_pow 0.5 (-1 / 2)).
Proof.
  apply (pcnw_without_dynamic_variable std_pow
           (RegularizedDynamicWaParams.super
              (finalized_store std_pow scenario)) 0.5).
  - reflexivity.
  - lra.
  - store. lra.
  - store. lra.
Defined.

Lemma pcnw_between_entry_pressures_witness :
  exists v,
    DynamicWa.twoPhaseSatPcnw std_pow
      (RegularizedDynamicWaParams.super (finalized_store std_pow scenario))
      0.5 0.2 = Ok v
    /\ 1000 * std_pow 0.5 (-1 / 2) <= v
    /\ v <= 5000 * std_pow 0.5 (-1 / 2).
Proof.
  apply (pcnw_between_entry_pressures std_pow
           (RegularizedDynamicWaParams.super
              (finalized_store std_pow scenario)) 0.5 0.2).
  - reflexivity.
  - lra.
  - store. lra.
  - store. lra.
  - lra.
  - left. apply std_pow_pos.
Defined.

Lemma kr_saturates_in_wa_witness :
  DynamicWa.twoPhaseSatKrw std_pow
    (RegularizedDynamicWaParams.super (finalized_store std_pow scenario))
    0.5 2
  = DynamicWa.twoPhaseSatKrw std_pow
      (RegularizedDynamicWaParams.super (finalized_store std_pow scenario))
      0.5 3
  /\ DynamicWa.twoPhaseSatKrn std_pow
       (RegularizedDynamicWaParams.super (finalized_store std_pow scenario))
       0.5 2
     = DynamicWa.twoPhaseSatKrn std_pow
         (RegularizedDynamicWaParams.super (finalized_store std_pow scenario))
         0.5 3.
Proof.
  apply (kr_saturates_in_wa std_pow
           (RegularizedDynamicWaParams.super
              (finalized_store std_pow scenario)) 0.5 2 3).
  - store. lra.
  - store. lra.
Defined.

Lemma reg_kr_within_unit_interval_witness :
  exists kw kn,
    RegularizedDynamicWa.twoPhaseSatKrw std_pow
      (finalized_store std_pow scenario) 0.5 0.2 = Ok kw
    /\ RegularizedDynamicWa.twoPhaseSatKrn std_pow
         (finalized_store std_pow scenario) 0.5 0.2 = Ok kn
    /\ 0 <= kw <= 1 /\ 0 <= kn <= 1.
Proof.
  apply (reg_kr_within_unit_interval std_pow
           (finalized_store std_pow scenario) 0.5 0.2).
  - reflexivity.
  - store. lra.
  - store. lra.
  - intros _. left. apply std_pow_pos.
Defined.

Lemma relativePermeabilities_sum_witness :
  exists kw kn,
    RegularizedDynamicWa.relativePermeabilities std_pow
      (finalized_store std_pow scenario) balanced_state = Ok (kw, kn)
    /\ kw + kn = 1.
Proof.
  apply (relativePermeabilities_sum std_pow
           (finalized_store std_pow scenario) balanced_state).
  - reflexivity.
  - cbn [balanced_state saturation]. lra.
  - intros _. cbn [balanced_state saturation wa].
    unfold kr_denominator, C_spec. store.
    assert (Hp : 0 < std_pow 0.3 3) by apply std_pow_pos.
    assert (Hm : Rmin (1 * 0.2 + 0.5) 2 = 1 * 0.2 + 0.5)
      by (apply Rmin_left; lra).
    rewrite Hm. nra.
Defined.

Lemma reg_kr_meets_raw_at_ends_witness :
  DynamicWa.twoPhaseSatKrw std_pow_posexp
    (RegularizedDynamicWaParams.super
       (finalized_store std_pow_posexp scenario)) 0 0.2 = Ok 0
  /\ DynamicWa.twoPhaseSatKrn std_pow_posexp
       (RegularizedDynamicWaParams.super
          (finalized_store std_pow_posexp scenario)) 1 0.2 = Ok 0.
Proof.
  destruct (reg_kr_meets_raw_at_ends std_pow_posexp
              (finalized_store std_pow_posexp scenario) 0.2 eq_refl)
    as [Hone Hzero].
  split.
  - apply Hzero. apply std_pow_posexp_zero.
  - apply Hone. rewrite std_pow_posexp_one. unfold C_spec. store.
    assert (Hm : Rmin (1 * 0.2 + 0.5) 2 = 1 * 0.2 + 0.5)
      by (apply Rmin_left; lra).
    rewrite Hm. lra.
Defined.

Lemma reg_pcnw_affine_outside_witness :
  exists va vb vm,
    RegularizedDynamicWa.twoPhaseSatPcnw std_pow
      (finalized_store std_pow scenario) (-1) 0.2 = Ok va
    /\ RegularizedDynamicWa.twoPhaseSatPcnw std_pow
         (finalized_store std_pow scenario) 0.005 0.2 = Ok vb
    /\ RegularizedDynamicWa.twoPhaseSatPcnw std_pow
         (finalized_store std_pow scenario) ((-1 + 0.005) / 2) 0.2 = Ok vm
    /\ vm = (va + vb) / 2.
Proof.
  apply (reg_pcnw_affine_outside std_pow
           (finalized_store std_pow scenario) (-1) 0.005 0.2).
  - exact scenario_RegFinalized.
  - store. lra.
  - left. store. lra.
Defined.
